(** * G RPG content library: the three datasets and their integrity properties

    The repository is a static content library: three JavaScript files, each
    building one [TAG_DEFINITIONS] dictionary and one [GRPG_LIBRARY] object
    literal.  The object literals are embedded below as they are written:
    an object used as a dictionary (a category bucket, the tag dictionary, an
    [attributeMods] mapping) becomes a [gmap] keyed by strings, an object
    used as a struct becomes a record whose optional fields are options, an
    array becomes a list, and a number becomes an integer. *)

From Stdlib Require Import Ascii String.
From stdpp Require Import gmap strings list fin_maps.

Local Open Scope string_scope.

(** ** Object literals *)

(** A JavaScript object literal [{ k1: v1, k2: v2, ... }] evaluates its
    properties from left to right, so a key written twice keeps the value
    written last.  This covers the keys the three files write, which are
    ordinary property names; the key [__proto__], which sets the prototype
    instead of a property, occurs in none of them and is not modelled. *)
Definition js_object {A : Type} (props : list (string * A)) : gmap string A :=
  foldl (λ o p, <[p.1 := p.2]> o) ∅ props.

(** ** Record shapes

    The shapes follow the SHAPE comments of the three files; a field marked
    optional there, or filled in by only some of the files, is an option. *)

(** An entry of the tag dictionary. *)
Module Tag.
Record t : Type := mk { category : string; description : string }.
End Tag.

Module Source.
Record t : Type := mk { book : string; page : option Z }.
End Source.

Module Version.
Record t : Type := mk { major : Z; minor : Z }.
End Version.

(** The single source of an ability. *)
Module GrantedBy.
Record t : Type := mk { type : string; id : string }.
End GrantedBy.

Module Lore.
Record t : Type := mk {
  homeland : option string;
  cultureNotes : option string;
  appearanceNotes : option string }.
End Lore.

Module RaceMechanics.
Record t : Type := mk {
  attributeMods : option (gmap string Z);
  baseSpeed : option Z;
  baseSpeedFeet : option Z;
  senses : option (list string);
  innateTraits : option (list string);
  innateAbilities : option (list string) }.
End RaceMechanics.

Module ClassMechanics.
Record t : Type := mk {
  primaryRoles : list string;
  hitDie : option string;
  resourceModel : option string;
  startingTraits : option (list string);
  startingAbilities : option (list string);
  progressionNotes : option string }.
End ClassMechanics.

Module TraitMechanics.
Record t : Type := mk { rulesText : string }.
End TraitMechanics.

Module AbilityMechanics.
Record t : Type := mk {
  category : option string;
  cost : option string;
  actionType : option string;
  range : option string;
  target : option string;
  duration : option string;
  cooldown : option string;
  rulesText : string }.
End AbilityMechanics.

(** The [mechanics] block of a record; its shape depends on the category the
    record is written for. *)
Inductive Mechanics : Type :=
  | RaceM (m : RaceMechanics.t)
  | ClassM (m : ClassMechanics.t)
  | TraitM (m : TraitMechanics.t)
  | AbilityM (m : AbilityMechanics.t).

(** One record of a category bucket: the base fields shared by all
    categories, the provenance fields that only some datasets fill in, and
    the category-specific blocks. *)
Module Entry.
Record t : Type := mk {
  id : string;
  type : string;
  name : string;
  summary : string;
  description : string;
  tags : list string;
  grantedBy : option GrantedBy.t;
  source : option Source.t;
  version : option Version.t;
  createdAt : option string;
  updatedAt : option string;
  mechanics : Mechanics;
  lore : option Lore.t }.
End Entry.

Module Meta.
Record t : Type := mk {
  schemaVersion : string;
  dataVersion : string;
  lastUpdated : string;
  notes : string }.
End Meta.

(** The library root object. *)
Module Library.
Record t : Type := mk {
  meta : option Meta.t;
  tags : gmap string Tag.t;
  races : gmap string Entry.t;
  classes : gmap string Entry.t;
  origins : gmap string Entry.t;
  circles : gmap string Entry.t;
  traits : gmap string Entry.t;
  abilities : gmap string Entry.t;
  items : gmap string Entry.t;
  professions : gmap string Entry.t }.
End Library.

(** ** The dataset of [library.js]

    [const TAG_DEFINITIONS] and [const GRPG_LIBRARY]; the file ends by
    storing both under the same names on [window] when there is one.  Each
    record of a bucket is given a definition of its own, named after its key,
    and the bucket lists the keys in the order of the file. *)

Module LibraryJs.

Definition TAG_DEFINITIONS : gmap string Tag.t :=
  js_object [
    ("type:race",
     {| Tag.category := "type";
        Tag.description := "Marks a record as a Race." |});
    ("type:class",
     {| Tag.category := "type";
        Tag.description := "Marks a record as a Class." |});
    ("type:circle",
     {| Tag.category := "type";
        Tag.description := "Marks a record as a Circle." |});
    ("type:origin",
     {| Tag.category := "type";
        Tag.description := "Marks a record as an Origin." |});
    ("type:trait",
     {| Tag.category := "type";
        Tag.description := "Marks a record as an Attribute or an Adventuring Trait (passives)." |});
    ("type:ability",
     {| Tag.category := "type";
        Tag.description := "Marks a record as a Combat or Adventuring Ability." |});
    ("type:item",
     {| Tag.category := "type";
        Tag.description := "Marks a record as an item (weapon, armor, gear, etc.)." |});
    ("type:profession",
     {| Tag.category := "type";
        Tag.description := "Marks a record as a Profession / non-combat role." |});
    ("type:condition",
     {| Tag.category := "type";
        Tag.description := "Marks a record as a Status Condition." |})
  ].

Definition race_tettari : Entry.t :=
  {| Entry.id := "race-tettari";
     Entry.type := "race";
     Entry.name := "Tettari";
     Entry.summary := "Short, quick, and warm-hearted humanoids known for hospitality and nimble reflexes.";
     Entry.description := "Tettari are a shorter race of quick and nimble humanoids, typically standing between 4 and 5 feet tall. Their complexion ranges from light blue, to dark blue, to light purple. They have large, flat noses often tinged with pink and usually wear their hair long and thick. Many male Tettari have wild hair that runs directly into their beards, but their facial hair notably does not include mustaches, further emphasizing their noses. Tettari tend to be warm, joyous, and passionate about people. They are known for their hospitality and welcoming communities, often living in communal homes and shared spaces.";
     Entry.tags := ["type:race"];
     Entry.grantedBy := None;
     Entry.source := None;
     Entry.version := None;
     Entry.createdAt := None;
     Entry.updatedAt := None;
     Entry.mechanics := RaceM
       {| RaceMechanics.attributeMods := Some (js_object [("agility", 2%Z); ("willpower", 2%Z); ("dodgeChance", 5%Z)]);
          RaceMechanics.baseSpeed := None;
          RaceMechanics.baseSpeedFeet := Some 40%Z;
          RaceMechanics.senses := None;
          RaceMechanics.innateTraits := Some [];
          RaceMechanics.innateAbilities := Some ["ability-tettari-blink"; "ability-tettari-stew"] |};
     Entry.lore := None |}.

Definition race_bartusa : Entry.t :=
  {| Entry.id := "race-bartusa";
     Entry.type := "race";
     Entry.name := "Bartusa";
     Entry.summary := "Large, powerful warriors with deep honor traditions and reinforced cranial ridges.";
     Entry.description := "Bartusa are large and powerful. They stand between 6 and 7 feet tall. Bartusa have broad shoulders that often make their heads look hunched over. Their skin ranges from deep purple to a dark brown color. Bartusa have reinforced cranial ridges on their foreheads, which often can extend into horn-like structures. Many people see Bartusa as a warrior race, however they see themselves as much more. The Bartusa have a strict sense of honor. Their society honors their warriors in highest regard, but still value all other aspects of their society, viewing them as necessary supporting functions to the warrior class. Bartusa and Tettari have become close allies as they compliment each other well in a society, Tettari caring for the town and enabling the honored warrior class of Bartusa to protect the community.";
     Entry.tags := ["type:race"];
     Entry.grantedBy := None;
     Entry.source := None;
     Entry.version := None;
     Entry.createdAt := None;
     Entry.updatedAt := None;
     Entry.mechanics := RaceM
       {| RaceMechanics.attributeMods := Some (js_object [("strength", 3%Z); ("fortitude", 1%Z); ("parryChance", 5%Z)]);
          RaceMechanics.baseSpeed := None;
          RaceMechanics.baseSpeedFeet := Some 30%Z;
          RaceMechanics.senses := None;
          RaceMechanics.innateTraits := Some [];
          RaceMechanics.innateAbilities := Some ["ability-unstoppable-charge"; "ability-word-of-honor"] |};
     Entry.lore := None |}.

Definition race_astrellidari : Entry.t :=
  {| Entry.id := "race-astrellidari";
     Entry.type := "race";
     Entry.name := "Astrellidari";
     Entry.summary := "Cosmic-featured humanoids with deep arcane intuition and stellar origins.";
     Entry.description := "Astrellidari are a mystical race of humanoids, said to originate from amongst the cosmos. Standing between 5 and 6 feet tall, these sleek fine featured individuals have a dark blue skin, with small beads of light across their skin both of which are reminiscent of the night’s sky. Their hair is a shiny platinum white, and their eyes usually burn with a single color, often yellow, white, or purple. Astrellidari are an intellectual race of people, who value reason and logic, and tend to show interest in matters of Arcane as they seem to have a connection to the Arcane elements. Astrellidari often see themselves as superior to other creatures, seeing themselves as descendants of the great cosmos itself.";
     Entry.tags := ["type:race"];
     Entry.grantedBy := None;
     Entry.source := None;
     Entry.version := None;
     Entry.createdAt := None;
     Entry.updatedAt := None;
     Entry.mechanics := RaceM
       {| RaceMechanics.attributeMods := Some (js_object [("willpower", 3%Z); ("agility", 1%Z); ("arcaneResistance", 15%Z)]);
          RaceMechanics.baseSpeed := None;
          RaceMechanics.baseSpeedFeet := Some 30%Z;
          RaceMechanics.senses := None;
          RaceMechanics.innateTraits := Some [];
          RaceMechanics.innateAbilities := Some ["ability-touch-of-the-cosmos"; "ability-arcane-intuition"] |};
     Entry.lore := None |}.

Definition race_wulkaran : Entry.t :=
  {| Entry.id := "race-wulkaran";
     Entry.type := "race";
     Entry.name := "Wulkaran";
     Entry.summary := "Large, fur-covered mountain dwellers known for battle rage and unusual rituals.";
     Entry.description := "The Wulkaran are large hairy humanoids. They stand between 6 and 7 feet tall, and are covered head to toe in long thick hair. While Wulkaran are strong and can be fierce warriors and are known for their rage in battle, however they often have a contemplative side to them. They tend to be superstitious and have unusual traditions or rituals in their culture that outsiders don't fully understand. Their thick fur has enabled them to comfortably live in frigid and mountainous regions. Some Wulkaran are nomadic and travel in tribes, while others will build isolated strongholds.";
     Entry.tags := ["type:race"];
     Entry.grantedBy := None;
     Entry.source := None;
     Entry.version := None;
     Entry.createdAt := None;
     Entry.updatedAt := None;
     Entry.mechanics := RaceM
       {| RaceMechanics.attributeMods := Some (js_object [("strength", 2%Z); ("fortitude", 2%Z); ("coldResistance", 15%Z)]);
          RaceMechanics.baseSpeed := None;
          RaceMechanics.baseSpeedFeet := Some 30%Z;
          RaceMechanics.senses := None;
          RaceMechanics.innateTraits := Some [];
          RaceMechanics.innateAbilities := Some ["ability-wulkaran-rage"; "ability-wulkaran-senses"] |};
     Entry.lore := None |}.

Definition race_ignium : Entry.t :=
  {| Entry.id := "race-ignium";
     Entry.type := "race";
     Entry.name := "Ignium";
     Entry.summary := "Rock-skinned humanoids fueled by inner fire and passionate tempers.";
     Entry.description := "The Ignium people tend to be normal humanoid size and shape with an elemental power within them. They have patches of rocky skin across their bodies, some even have their entire body covered in this rocky flesh. Deep from within them is a fiery light that burns and begins to show through cracks in their rocky skin. These people stand between 5 and 6 feet tall, and often live near deserts or towards the warmer climates. Ignium can lead normal lives and are often a passionate race of people. Many Ignium towns are coastal, fueled by sailing and fishing, others are desert oases. Ignimum are often feared by other races, due to their association with fire, and short tempers to match.";
     Entry.tags := ["type:race"];
     Entry.grantedBy := None;
     Entry.source := None;
     Entry.version := None;
     Entry.createdAt := None;
     Entry.updatedAt := None;
     Entry.mechanics := RaceM
       {| RaceMechanics.attributeMods := Some (js_object [("fortitude", 2%Z); ("willpower", 2%Z); ("fireResistance", 15%Z)]);
          RaceMechanics.baseSpeed := None;
          RaceMechanics.baseSpeedFeet := Some 30%Z;
          RaceMechanics.senses := None;
          RaceMechanics.innateTraits := Some [];
          RaceMechanics.innateAbilities := Some ["ability-ignis-unleashed"; "ability-fire-in-their-eye"] |};
     Entry.lore := None |}.

Definition race_animation : Entry.t :=
  {| Entry.id := "race-animation";
     Entry.type := "race";
     Entry.name := "Animation";
     Entry.summary := "Living constructs animated by various Circles, diverse in form and function.";
     Entry.description := "Animations are a varied people, that have a common origin, but varied traits based on their physical make-up. Through various means, constructs have been brought to life through different Circles, and collectively people refer to them as Animations.";
     Entry.tags := ["type:race"];
     Entry.grantedBy := None;
     Entry.source := None;
     Entry.version := None;
     Entry.createdAt := None;
     Entry.updatedAt := None;
     Entry.mechanics := RaceM
       {| RaceMechanics.attributeMods := Some (js_object [("fortitude", 2%Z); ("strength", 1%Z); ("agility", 1%Z); ("bodilyFortification", 15%Z)]);
          RaceMechanics.baseSpeed := None;
          RaceMechanics.baseSpeedFeet := Some 30%Z;
          RaceMechanics.senses := None;
          RaceMechanics.innateTraits := Some [];
          RaceMechanics.innateAbilities := Some ["ability-living-touch"; "ability-spark-of-life"] |};
     Entry.lore := None |}.

Definition race_endari : Entry.t :=
  {| Entry.id := "race-endari";
     Entry.type := "race";
     Entry.name := "Endari";
     Entry.summary := "Tall, tentacled hunters from dense forests with deadly agility.";
     Entry.description := "Endari are a slim tall race that stands around 6 feet tall. Endari notably have thin tentacles in place of their hair which enhance their senses. Endari typically live in thick forests or jungles. Endari are known for being incredibly agile hunters. Endari culture tends to be harsh and tend towards “every man for themselves” mentality.";
     Entry.tags := ["type:race"];
     Entry.grantedBy := None;
     Entry.source := None;
     Entry.version := None;
     Entry.createdAt := None;
     Entry.updatedAt := None;
     Entry.mechanics := RaceM
       {| RaceMechanics.attributeMods := Some (js_object [("agility", 3%Z); ("willpower", 1%Z); ("criticalChance", 5%Z)]);
          RaceMechanics.baseSpeed := None;
          RaceMechanics.baseSpeedFeet := Some 30%Z;
          RaceMechanics.senses := None;
          RaceMechanics.innateTraits := Some [];
          RaceMechanics.innateAbilities := Some ["ability-aggressive-surge"; "ability-endari-tentacles"] |};
     Entry.lore := None |}.

Definition race_feyrdrin : Entry.t :=
  {| Entry.id := "race-feyrdrin";
     Entry.type := "race";
     Entry.name := "Feyrdrin";
     Entry.summary := "Plant-skinned folk of petals and antennae who revere nature as kin.";
     Entry.description := "A people of fairytales and bedtime stories, the Feyrdrin were considered a myth until they emerged into the public eye a few decades ago. These folk can be identified easily by their plant-like skin, sprout-like antennae, and drooped ears. Where one might expect hair, Feyrdrin instead sprout brightly colored petals like those of a flower. Most Feyrdrin revere nature above all else, believing that plants are Feyrdrin that have not yet come to be.";
     Entry.tags := ["type:race"];
     Entry.grantedBy := None;
     Entry.source := None;
     Entry.version := None;
     Entry.createdAt := None;
     Entry.updatedAt := None;
     Entry.mechanics := RaceM
       {| RaceMechanics.attributeMods := Some (js_object [("willpower", 2%Z); ("agility", 1%Z); ("fortitude", 1%Z); ("natureResistance", 15%Z)]);
          RaceMechanics.baseSpeed := None;
          RaceMechanics.baseSpeedFeet := Some 40%Z;
          RaceMechanics.senses := None;
          RaceMechanics.innateTraits := Some [];
          RaceMechanics.innateAbilities := Some ["ability-barkskin"; "ability-feyrdrin-footing"] |};
     Entry.lore := None |}.

Definition race_geodran : Entry.t :=
  {| Entry.id := "race-geodran";
     Entry.type := "race";
     Entry.name := "Geodran";
     Entry.summary := "Stone- and crystal-skinned giants, peaceful and deeply attuned to earth.";
     Entry.description := "Geodran are large humanoids who have either stone or crystalline skin. These fearsome people tend to be peaceful and slow to violence. Geodran tend to speak and think slowly and intentionally. Geodran are naturally attuned to the earth, and often roam highlands and mountains in herds.";
     Entry.tags := ["type:race"];
     Entry.grantedBy := None;
     Entry.source := None;
     Entry.version := None;
     Entry.createdAt := None;
     Entry.updatedAt := None;
     Entry.mechanics := RaceM
       {| RaceMechanics.attributeMods := Some (js_object [("fortitude", 2%Z); ("strength", 1%Z); ("willpower", 1%Z); ("armor", 5%Z)]);
          RaceMechanics.baseSpeed := None;
          RaceMechanics.baseSpeedFeet := Some 30%Z;
          RaceMechanics.senses := None;
          RaceMechanics.innateTraits := Some [];
          RaceMechanics.innateAbilities := Some ["ability-earth-tremor"; "ability-sensing-tremor"] |};
     Entry.lore := None |}.

Definition race_omr : Entry.t :=
  {| Entry.id := "race-omr";
     Entry.type := "race";
     Entry.name := "Omr";
     Entry.summary := "Blue-skinned, white-eyed cave dwellers steeped in shadow and rigid order.";
     Entry.description := "Omr are a strange race of humanoids that live deep below the surface of the earth, usually in caves or caverns. They have blue skin and completely white eyes that aid in their ability to see and live in the darkness of underground. They have adapted abilities and affinities for shadow from their time in the darkness. Omr culture tends to be cold and strict, veiled in layers of tradition and order.";
     Entry.tags := ["type:race"];
     Entry.grantedBy := None;
     Entry.source := None;
     Entry.version := None;
     Entry.createdAt := None;
     Entry.updatedAt := None;
     Entry.mechanics := RaceM
       {| RaceMechanics.attributeMods := Some (js_object [("willpower", 2%Z); ("agility", 1%Z); ("strength", 1%Z); ("shadowResistance", 15%Z)]);
          RaceMechanics.baseSpeed := None;
          RaceMechanics.baseSpeedFeet := Some 30%Z;
          RaceMechanics.senses := None;
          RaceMechanics.innateTraits := Some [];
          RaceMechanics.innateAbilities := Some ["ability-creeping-darkness"; "ability-omr-sight"] |};
     Entry.lore := None |}.

Definition race_wildeman : Entry.t :=
  {| Entry.id := "race-wildeman";
     Entry.type := "race";
     Entry.name := "Wildeman";
     Entry.summary := "Broad, animal-featured folk with wildly varied origins and forms.";
     Entry.description := "Wildeman are a broad categorized race of humanoid people with animalistic features. Being a people of such diverse origins and features, they are prevalent in all sorts of biomes or kingdoms.";
     Entry.tags := ["type:race"];
     Entry.grantedBy := None;
     Entry.source := None;
     Entry.version := None;
     Entry.createdAt := None;
     Entry.updatedAt := None;
     Entry.mechanics := RaceM
       {| RaceMechanics.attributeMods := Some (js_object [("anyAttribute", 3%Z); ("anotherAttribute", 1%Z); ("anyOffenseOrDefense_A", 5%Z); ("coldResistance_A", 15%Z)]);
          RaceMechanics.baseSpeed := None;
          RaceMechanics.baseSpeedFeet := Some 30%Z;
          RaceMechanics.senses := None;
          RaceMechanics.innateTraits := Some [];
          RaceMechanics.innateAbilities := Some ["ability-primal-roar-novice"; "ability-wild-form"] |};
     Entry.lore := None |}.

Definition race_thulhan : Entry.t :=
  {| Entry.id := "race-thulhan";
     Entry.type := "race";
     Entry.name := "Thulhan";
     Entry.summary := "Tentacled, psychic-leaning outcasts descended from a fallen starborn power.";
     Entry.description := "Thulhan are slim humanoids, with an elongated cranial ridge, and tentacles over their mouth. Rumored to have descended from a great monstrosity from the stars, Thulan are often misunderstood, distrusted, and treated as outsiders in society. Historically Thulan rivaled Astrellidari as a great race of intelligent and innovative people. This rivalry sparked many disputes between the races until finally the Thulan fell from power and were scattered. Thulhan's great Intelligence can even manifest in spurts of Psychic abilities.";
     Entry.tags := ["type:race"];
     Entry.grantedBy := None;
     Entry.source := None;
     Entry.version := None;
     Entry.createdAt := None;
     Entry.updatedAt := None;
     Entry.mechanics := RaceM
       {| RaceMechanics.attributeMods := Some (js_object [("willpower", 3%Z); ("fortitude", 1%Z); ("wardChance", 5%Z)]);
          RaceMechanics.baseSpeed := None;
          RaceMechanics.baseSpeedFeet := Some 30%Z;
          RaceMechanics.senses := None;
          RaceMechanics.innateTraits := Some [];
          RaceMechanics.innateAbilities := Some ["ability-seed-of-paranoia"; "ability-thul-speech"] |};
     Entry.lore := None |}.

Definition race_jackal : Entry.t :=
  {| Entry.id := "race-jackal";
     Entry.type := "race";
     Entry.name := "Jackal";
     Entry.summary := "Tall, lightly furred tricksters tied to sun, death, and superstition.";
     Entry.description := "Jackal are tall slender humanoids, who are lightly furred and have narrow dog-like faces. Jackal often are superstitious and will draw inspiration from the sun, moon, or other natural elements. They are also renowned tricksters, and are said to be descended from a god of death and the god of the sun.";
     Entry.tags := ["type:race"];
     Entry.grantedBy := None;
     Entry.source := None;
     Entry.version := None;
     Entry.createdAt := None;
     Entry.updatedAt := None;
     Entry.mechanics := RaceM
       {| RaceMechanics.attributeMods := Some (js_object [("willpower", 2%Z); ("agility", 1%Z); ("strength", 1%Z); ("lightResistance", 15%Z)]);
          RaceMechanics.baseSpeed := None;
          RaceMechanics.baseSpeedFeet := Some 30%Z;
          RaceMechanics.senses := None;
          RaceMechanics.innateTraits := Some [];
          RaceMechanics.innateAbilities := Some ["ability-sun-ray"; "ability-deaths-guise"] |};
     Entry.lore := None |}.

Definition races : gmap string Entry.t :=
  js_object [
    ("race-tettari", race_tettari);
    ("race-bartusa", race_bartusa);
    ("race-astrellidari", race_astrellidari);
    ("race-wulkaran", race_wulkaran);
    ("race-ignium", race_ignium);
    ("race-animation", race_animation);
    ("race-endari", race_endari);
    ("race-feyrdrin", race_feyrdrin);
    ("race-geodran", race_geodran);
    ("race-omr", race_omr);
    ("race-wildeman", race_wildeman);
    ("race-thulhan", race_thulhan);
    ("race-jackal", race_jackal)
  ].

Definition classes : gmap string Entry.t := js_object [].

Definition origins : gmap string Entry.t := js_object [].

Definition circles : gmap string Entry.t := js_object [].

Definition traits : gmap string Entry.t := js_object [].

Definition ability_tettari_blink : Entry.t :=
  {| Entry.id := "ability-tettari-blink";
     Entry.type := "ability";
     Entry.name := "Tettari Blink";
     Entry.summary := "Teleport yourself to a new location within 30 feet.";
     Entry.description := "Your perceived speed may be partially due to your limited ability to teleport. You can bend space to teleport to a new location within 30 feet.";
     Entry.tags := ["type:ability"; "category:combat"; "source:race-tettari"];
     Entry.grantedBy := Some {| GrantedBy.type := "race"; GrantedBy.id := "race-tettari" |};
     Entry.source := None;
     Entry.version := None;
     Entry.createdAt := None;
     Entry.updatedAt := None;
     Entry.mechanics := AbilityM
       {| AbilityMechanics.category := Some "combat";
          AbilityMechanics.cost := Some "No Cost";
          AbilityMechanics.actionType := Some "1 Action";
          AbilityMechanics.range := Some "Self";
          AbilityMechanics.target := None;
          AbilityMechanics.duration := None;
          AbilityMechanics.cooldown := Some "6 Turn Cooldown";
          AbilityMechanics.rulesText := "Your perceived speed may be partially due to your limited ability to teleport. You can bend space to teleport to a new location within 30 feet." |};
     Entry.lore := None |}.

Definition ability_tettari_stew : Entry.t :=
  {| Entry.id := "ability-tettari-stew";
     Entry.type := "ability";
     Entry.name := "Tettari Stew";
     Entry.summary := "Prepare a stew that grants each ally an additional Bend Fate roll after rest.";
     Entry.description := "You have a skilled palette and sense for what could make for a good hearty stew, no matter where you seem to be. If you are able to find some provisions, you can turn them into a tasty stew, calming your allies and making them feel at home. Each ally who partakes can add an additional Bend Fate roll tomorrow after completing their rest,";
     Entry.tags := ["type:ability"; "category:adventuring"; "source:race-tettari"];
     Entry.grantedBy := Some {| GrantedBy.type := "race"; GrantedBy.id := "race-tettari" |};
     Entry.source := None;
     Entry.version := None;
     Entry.createdAt := None;
     Entry.updatedAt := None;
     Entry.mechanics := AbilityM
       {| AbilityMechanics.category := Some "adventuring";
          AbilityMechanics.cost := None;
          AbilityMechanics.actionType := None;
          AbilityMechanics.range := None;
          AbilityMechanics.target := None;
          AbilityMechanics.duration := None;
          AbilityMechanics.cooldown := None;
          AbilityMechanics.rulesText := "You have a skilled palette and sense for what could make for a good hearty stew, no matter where you seem to be. If you are able to find some provisions, you can turn them into a tasty stew, calming your allies and making them feel at home. Each ally who partakes can add an additional Bend Fate roll tomorrow after completing their rest," |};
     Entry.lore := None |}.

Definition ability_unstoppable_charge : Entry.t :=
  {| Entry.id := "ability-unstoppable-charge";
     Entry.type := "ability";
     Entry.name := "Unstoppable Charge";
     Entry.summary := "Break free from hindering conditions and dash up to 15 feet.";
     Entry.description := "Your great force of will allows you to break from any Slow, Snare, or Restraint conditions, and dash up to 15 feet.";
     Entry.tags := ["type:ability"; "category:combat"; "source:race-bartusa"];
     Entry.grantedBy := Some {| GrantedBy.type := "race"; GrantedBy.id := "race-bartusa" |};
     Entry.source := None;
     Entry.version := None;
     Entry.createdAt := None;
     Entry.updatedAt := None;
     Entry.mechanics := AbilityM
       {| AbilityMechanics.category := Some "combat";
          AbilityMechanics.cost := Some "No Cost";
          AbilityMechanics.actionType := Some "1 Minor action";
          AbilityMechanics.range := Some "Self";
          AbilityMechanics.target := None;
          AbilityMechanics.duration := None;
          AbilityMechanics.cooldown := Some "6 Turn Cooldown";
          AbilityMechanics.rulesText := "Your great force of will allows you to break from any Slow, Snare, or Restraint conditions, and dash up to 15 feet." |};
     Entry.lore := None |}.

Definition ability_word_of_honor : Entry.t :=
  {| Entry.id := "ability-word-of-honor";
     Entry.type := "ability";
     Entry.name := "Word of Honor";
     Entry.summary := "Gain 1d6 when persuading after pledging your word.";
     Entry.description := "A Bartusa pledge is one acknowledged by all races, for their word is stone. Bartusa will only pledge their word if they are willing to die to back up their word. Breaking their word once pledged is seen as an ultimate disgrace to other Bartusa, resulting in their exile. Gain 1d6 to your adventuring pool when pledging your word in an attempt to persuade.";
     Entry.tags := ["type:ability"; "category:adventuring"; "source:race-bartusa"];
     Entry.grantedBy := Some {| GrantedBy.type := "race"; GrantedBy.id := "race-bartusa" |};
     Entry.source := None;
     Entry.version := None;
     Entry.createdAt := None;
     Entry.updatedAt := None;
     Entry.mechanics := AbilityM
       {| AbilityMechanics.category := Some "adventuring";
          AbilityMechanics.cost := None;
          AbilityMechanics.actionType := None;
          AbilityMechanics.range := None;
          AbilityMechanics.target := None;
          AbilityMechanics.duration := None;
          AbilityMechanics.cooldown := None;
          AbilityMechanics.rulesText := "A Bartusa pledge is one acknowledged by all races, for their word is stone. Bartusa will only pledge their word if they are willing to die to back up their word. Breaking their word once pledged is seen as an ultimate disgrace to other Bartusa, resulting in their exile. Gain 1d6 to your adventuring pool when pledging your word in an attempt to persuade." |};
     Entry.lore := None |}.

Definition ability_touch_of_the_cosmos : Entry.t :=
  {| Entry.id := "ability-touch-of-the-cosmos";
     Entry.type := "ability";
     Entry.name := "Touch of the Cosmos";
     Entry.summary := "Put a creature to sleep until your next turn as their mind wanders the stars.";
     Entry.description := "You touch a creature, unleashing your cosmic brilliance against their mind. They fall Asleep (MF) until the start of your next turn, as their mind wanders the stars. Resisted by Mental Fortification.";
     Entry.tags := ["type:ability"; "category:combat"; "source:race-astrellidari"];
     Entry.grantedBy := Some {| GrantedBy.type := "race"; GrantedBy.id := "race-astrellidari" |};
     Entry.source := None;
     Entry.version := None;
     Entry.createdAt := None;
     Entry.updatedAt := None;
     Entry.mechanics := AbilityM
       {| AbilityMechanics.category := Some "combat";
          AbilityMechanics.cost := Some "No Cost";
          AbilityMechanics.actionType := Some "1 Action";
          AbilityMechanics.range := Some "Melee";
          AbilityMechanics.target := None;
          AbilityMechanics.duration := None;
          AbilityMechanics.cooldown := Some "6 Turn Cooldown";
          AbilityMechanics.rulesText := "You touch a creature, unleashing your cosmic brilliance against their mind. They fall Asleep (MF) until the start of your next turn, as their mind wanders the stars. Resisted by Mental Fortification." |};
     Entry.lore := None |}.

Definition ability_arcane_intuition : Entry.t :=
  {| Entry.id := "ability-arcane-intuition";
     Entry.type := "ability";
     Entry.name := "Arcane Intuition";
     Entry.summary := "Gain 1d6 when identifying or interacting with Arcane-based magic.";
     Entry.description := "Astrellidari have an unusual connection to the Arcane. They often understand it far quicker than others. As such when encountering unknown arcane effects, they can often discover qualities about its origin or effects. Gain 1d6 in any attempt made to identify or interact with Arcane based magic.";
     Entry.tags := ["type:ability"; "category:adventuring"; "source:race-astrellidari"];
     Entry.grantedBy := Some {| GrantedBy.type := "race"; GrantedBy.id := "race-astrellidari" |};
     Entry.source := None;
     Entry.version := None;
     Entry.createdAt := None;
     Entry.updatedAt := None;
     Entry.mechanics := AbilityM
       {| AbilityMechanics.category := Some "adventuring";
          AbilityMechanics.cost := None;
          AbilityMechanics.actionType := None;
          AbilityMechanics.range := None;
          AbilityMechanics.target := None;
          AbilityMechanics.duration := None;
          AbilityMechanics.cooldown := None;
          AbilityMechanics.rulesText := "Astrellidari have an unusual connection to the Arcane. They often understand it far quicker than others. As such when encountering unknown arcane effects, they can often discover qualities about its origin or effects. Gain 1d6 in any attempt made to identify or interact with Arcane based magic." |};
     Entry.lore := None |}.

Definition ability_wulkaran_rage : Entry.t :=
  {| Entry.id := "ability-wulkaran-rage";
     Entry.type := "ability";
     Entry.name := "Wulkaran Rage";
     Entry.summary := "Enter a rage to gain an additional action used offensively.";
     Entry.description := "You burst into a rage, gaining an additional action on your turn that you must use to make an attack or use an offensive ability.";
     Entry.tags := ["type:ability"; "category:combat"; "source:race-wulkaran"];
     Entry.grantedBy := Some {| GrantedBy.type := "race"; GrantedBy.id := "race-wulkaran" |};
     Entry.source := None;
     Entry.version := None;
     Entry.createdAt := None;
     Entry.updatedAt := None;
     Entry.mechanics := AbilityM
       {| AbilityMechanics.category := Some "combat";
          AbilityMechanics.cost := Some "No Cost";
          AbilityMechanics.actionType := Some "1 Minor Action";
          AbilityMechanics.range := Some "Melee";
          AbilityMechanics.target := None;
          AbilityMechanics.duration := None;
          AbilityMechanics.cooldown := Some "6 Turn Cooldown";
          AbilityMechanics.rulesText := "You burst into a rage, gaining an additional action on your turn that you must use to make an attack or use an offensive ability." |};
     Entry.lore := None |}.

Definition ability_wulkaran_senses : Entry.t :=
  {| Entry.id := "ability-wulkaran-senses";
     Entry.type := "ability";
     Entry.name := "Wulkaran Senses";
     Entry.summary := "Gain 1d6 to Observation checks using hearing or smell.";
     Entry.description := "A Wulkaran has an enhanced sense of both hearing and smell. Observation checks that use either sense gains an additional 1d6.";
     Entry.tags := ["type:ability"; "category:adventuring"; "source:race-wulkaran"];
     Entry.grantedBy := Some {| GrantedBy.type := "race"; GrantedBy.id := "race-wulkaran" |};
     Entry.source := None;
     Entry.version := None;
     Entry.createdAt := None;
     Entry.updatedAt := None;
     Entry.mechanics := AbilityM
       {| AbilityMechanics.category := Some "adventuring";
          AbilityMechanics.cost := None;
          AbilityMechanics.actionType := None;
          AbilityMechanics.range := None;
          AbilityMechanics.target := None;
          AbilityMechanics.duration := None;
          AbilityMechanics.cooldown := None;
          AbilityMechanics.rulesText := "A Wulkaran has an enhanced sense of both hearing and smell. Observation checks that use either sense gains an additional 1d6." |};
     Entry.lore := None |}.

Definition ability_ignis_unleashed : Entry.t :=
  {| Entry.id := "ability-ignis-unleashed";
     Entry.type := "ability";
     Entry.name := "Ignis Unleashed";
     Entry.summary := "Deal Fire Damage equal to your Willpower pool to all enemies in a 20 ft cone.";
     Entry.description := "You unleash the fire deep within your core, dealing Willpower pool of Fire Damage to all enemies within a 20ft Cone.";
     Entry.tags := ["type:ability"; "category:combat"; "source:race-ignium"];
     Entry.grantedBy := Some {| GrantedBy.type := "race"; GrantedBy.id := "race-ignium" |};
     Entry.source := None;
     Entry.version := None;
     Entry.createdAt := None;
     Entry.updatedAt := None;
     Entry.mechanics := AbilityM
       {| AbilityMechanics.category := Some "combat";
          AbilityMechanics.cost := Some "No Cost";
          AbilityMechanics.actionType := Some "1 Action";
          AbilityMechanics.range := Some "Self";
          AbilityMechanics.target := None;
          AbilityMechanics.duration := None;
          AbilityMechanics.cooldown := Some "6 Turn Cooldown";
          AbilityMechanics.rulesText := "You unleash the fire deep within your core, dealing Willpower pool of Fire Damage to all enemies within a 20ft Cone." |};
     Entry.lore := None |}.

Definition ability_fire_in_their_eye : Entry.t :=
  {| Entry.id := "ability-fire-in-their-eye";
     Entry.type := "ability";
     Entry.name := "Fire in Their Eye";
     Entry.summary := "Gain 1d6 to your Intuition pool when reading someone’s truthfulness or motives.";
     Entry.description := "The Ignium are exceptional at sensing the character of others. By looking deep into the eyes of an individual you have an enhanced sense to determine if they are telling the truth or hiding their motives. Gain 1d6 to your Intuition pool in relevant checks";
     Entry.tags := ["type:ability"; "category:adventuring"; "source:race-ignium"];
     Entry.grantedBy := Some {| GrantedBy.type := "race"; GrantedBy.id := "race-ignium" |};
     Entry.source := None;
     Entry.version := None;
     Entry.createdAt := None;
     Entry.updatedAt := None;
     Entry.mechanics := AbilityM
       {| AbilityMechanics.category := Some "adventuring";
          AbilityMechanics.cost := None;
          AbilityMechanics.actionType := None;
          AbilityMechanics.range := None;
          AbilityMechanics.target := None;
          AbilityMechanics.duration := None;
          AbilityMechanics.cooldown := None;
          AbilityMechanics.rulesText := "The Ignium are exceptional at sensing the character of others. By looking deep into the eyes of an individual you have an enhanced sense to determine if they are telling the truth or hiding their motives. Gain 1d6 to your Intuition pool in relevant checks" |};
     Entry.lore := None |}.

Definition ability_internal_spark : Entry.t :=
  {| Entry.id := "ability-internal-spark";
     Entry.type := "ability";
     Entry.name := "Living Touch";
     Entry.summary := "Restore your health by activating the life force within you.";
     Entry.description := "Activate the life force within you to restore your physical form. Regain 5+Fortitude pool of Health.";
     Entry.tags := ["type:ability"; "category:combat"; "source:race-animation"];
     Entry.grantedBy := Some {| GrantedBy.type := "race"; GrantedBy.id := "race-animation" |};
     Entry.source := None;
     Entry.version := None;
     Entry.createdAt := None;
     Entry.updatedAt := None;
     Entry.mechanics := AbilityM
       {| AbilityMechanics.category := Some "combat";
          AbilityMechanics.cost := Some "No Cost";
          AbilityMechanics.actionType := Some "1 Action";
          AbilityMechanics.range := Some "Self";
          AbilityMechanics.target := None;
          AbilityMechanics.duration := None;
          AbilityMechanics.cooldown := Some "6 Turn Cooldown";
          AbilityMechanics.rulesText := "Activate the life force within you to restore your physical form. Regain 5+Fortitude pool of Health." |};
     Entry.lore := None |}.

Definition ability_spark_of_life : Entry.t :=
  {| Entry.id := "ability-spark-of-life";
     Entry.type := "ability";
     Entry.name := "Spark of Life";
     Entry.summary := "Animate an object for 10 minutes and see through its eyes.";
     Entry.description := "Once per day, you can transfer a spark of your life force into an inanimate object. For the next 10 minutes the object gains a walking speed equal to your own, and you can see though it's as though it was your own eyes.";
     Entry.tags := ["type:ability"; "category:adventuring"; "source:race-animation"];
     Entry.grantedBy := Some {| GrantedBy.type := "race"; GrantedBy.id := "race-animation" |};
     Entry.source := None;
     Entry.version := None;
     Entry.createdAt := None;
     Entry.updatedAt := None;
     Entry.mechanics := AbilityM
       {| AbilityMechanics.category := Some "adventuring";
          AbilityMechanics.cost := None;
          AbilityMechanics.actionType := None;
          AbilityMechanics.range := None;
          AbilityMechanics.target := None;
          AbilityMechanics.duration := None;
          AbilityMechanics.cooldown := None;
          AbilityMechanics.rulesText := "Once per day, you can transfer a spark of your life force into an inanimate object. For the next 10 minutes the object gains a walking speed equal to your own, and you can see though it's as though it was your own eyes." |};
     Entry.lore := None |}.

Definition ability_aggressive_surge : Entry.t :=
  {| Entry.id := "ability-aggressive-surge";
     Entry.type := "ability";
     Entry.name := "Aggressive Surge";
     Entry.summary := "Reroll your next Offensive roll.";
     Entry.description := "With an aggressive surge of instinctive prowess as you strike to kill. Your next attack or ability can reroll your Offenses roll.";
     Entry.tags := ["type:ability"; "category:combat"; "source:race-endari"];
     Entry.grantedBy := Some {| GrantedBy.type := "race"; GrantedBy.id := "race-endari" |};
     Entry.source := None;
     Entry.version := None;
     Entry.createdAt := None;
     Entry.updatedAt := None;
     Entry.mechanics := AbilityM
       {| AbilityMechanics.category := Some "combat";
          AbilityMechanics.cost := Some "No Cost";
          AbilityMechanics.actionType := Some "1 Minor Action";
          AbilityMechanics.range := Some "Self";
          AbilityMechanics.target := None;
          AbilityMechanics.duration := None;
          AbilityMechanics.cooldown := Some "3 Turn Cooldown";
          AbilityMechanics.rulesText := "With an aggressive surge of instinctive prowess as you strike to kill. Your next attack or ability can reroll your Offenses roll." |};
     Entry.lore := None |}.

Definition ability_endari_tentacles : Entry.t :=
  {| Entry.id := "ability-endari-tentacles";
     Entry.type := "ability";
     Entry.name := "Endari Tentacles";
     Entry.summary := "Sense any movement within 30 feet, including invisible or hidden creatures.";
     Entry.description := "Your tentacles allow you to sense the environment around you. You can sense any movement within 30 feet of you, allowing you to sense invisible or hidden creatures.";
     Entry.tags := ["type:ability"; "category:adventuring"; "source:race-endari"];
     Entry.grantedBy := Some {| GrantedBy.type := "race"; GrantedBy.id := "race-endari" |};
     Entry.source := None;
     Entry.version := None;
     Entry.createdAt := None;
     Entry.updatedAt := None;
     Entry.mechanics := AbilityM
       {| AbilityMechanics.category := Some "adventuring";
          AbilityMechanics.cost := None;
          AbilityMechanics.actionType := None;
          AbilityMechanics.range := None;
          AbilityMechanics.target := None;
          AbilityMechanics.duration := None;
          AbilityMechanics.cooldown := None;
          AbilityMechanics.rulesText := "Your tentacles allow you to sense the environment around you. You can sense any movement within 30 feet of you, allowing you to sense invisible or hidden creatures." |};
     Entry.lore := None |}.

Definition ability_barkskin : Entry.t :=
  {| Entry.id := "ability-barkskin";
     Entry.type := "ability";
     Entry.name := "Barkskin";
     Entry.summary := "Grow protective bark and flora, granting 1d12 to your Armor pool for three turns.";
     Entry.description := "You can grow a thick layer of bark and flora around your armor, protecting you for the next three turns, granting 1d12 to your Armor pool.";
     Entry.tags := ["type:ability"; "category:combat"; "source:race-feyrdrin"];
     Entry.grantedBy := Some {| GrantedBy.type := "race"; GrantedBy.id := "race-feyrdrin" |};
     Entry.source := None;
     Entry.version := None;
     Entry.createdAt := None;
     Entry.updatedAt := None;
     Entry.mechanics := AbilityM
       {| AbilityMechanics.category := Some "combat";
          AbilityMechanics.cost := Some "No Cost";
          AbilityMechanics.actionType := Some "1 Minor Action";
          AbilityMechanics.range := Some "Self";
          AbilityMechanics.target := None;
          AbilityMechanics.duration := Some "the next three turns";
          AbilityMechanics.cooldown := Some "6 Turn Cooldown";
          AbilityMechanics.rulesText := "You can grow a thick layer of bark and flora around your armor, protecting you for the next three turns, granting 1d12 to your Armor pool." |};
     Entry.lore := None |}.

Definition ability_feyrdrin_footing : Entry.t :=
  {| Entry.id := "ability-feyrdrin-footing";
     Entry.type := "ability";
     Entry.name := "Feyrdrin Footing";
     Entry.summary := "Leave no trace when traveling and ignore natural difficult terrain.";
     Entry.description := "Your people’s reverence of nature is expressed in a gentle touch toward the earth. When you travel, you leave no trace of your footsteps behind you, and stepping on fragile grass or other plant life does not break or disturb them in any way. This is often seen by others as almost floating across surfaces. Additionally when traveling through nature, the environment twists and lightens the journey. You and your party are not impeded by natural difficult terrains.";
     Entry.tags := ["type:ability"; "category:adventuring"; "source:race-feyrdrin"];
     Entry.grantedBy := Some {| GrantedBy.type := "race"; GrantedBy.id := "race-feyrdrin" |};
     Entry.source := None;
     Entry.version := None;
     Entry.createdAt := None;
     Entry.updatedAt := None;
     Entry.mechanics := AbilityM
       {| AbilityMechanics.category := Some "adventuring";
          AbilityMechanics.cost := None;
          AbilityMechanics.actionType := None;
          AbilityMechanics.range := None;
          AbilityMechanics.target := None;
          AbilityMechanics.duration := None;
          AbilityMechanics.cooldown := None;
          AbilityMechanics.rulesText := "Your people’s reverence of nature is expressed in a gentle touch toward the earth. When you travel, you leave no trace of your footsteps behind you, and stepping on fragile grass or other plant life does not break or disturb them in any way. This is often seen by others as almost floating across surfaces. Additionally when traveling through nature, the environment twists and lightens the journey. You and your party are not impeded by natural difficult terrains." |};
     Entry.lore := None |}.

Definition ability_earth_tremor : Entry.t :=
  {| Entry.id := "ability-earth-tremor";
     Entry.type := "ability";
     Entry.name := "Earth Tremor";
     Entry.summary := "Knock all targets within 30 feet prone and slow their movement until your next turn.";
     Entry.description := "Shake the ground beneath your feet, causing all targets within 30 feet of you to be knocked Prone (PF). Additionally creatures have their movement speed slowed by half when moving through the area until the start of your next turn.";
     Entry.tags := ["type:ability"; "category:combat"; "source:race-geodran"];
     Entry.grantedBy := Some {| GrantedBy.type := "race"; GrantedBy.id := "race-geodran" |};
     Entry.source := None;
     Entry.version := None;
     Entry.createdAt := None;
     Entry.updatedAt := None;
     Entry.mechanics := AbilityM
       {| AbilityMechanics.category := Some "combat";
          AbilityMechanics.cost := Some "No Cost";
          AbilityMechanics.actionType := Some "1 Action";
          AbilityMechanics.range := Some "Self";
          AbilityMechanics.target := None;
          AbilityMechanics.duration := None;
          AbilityMechanics.cooldown := Some "6 Turn Cooldown";
          AbilityMechanics.rulesText := "Shake the ground beneath your feet, causing all targets within 30 feet of you to be knocked Prone (PF). Additionally creatures have their movement speed slowed by half when moving through the area until the start of your next turn." |};
     Entry.lore := None |}.

Definition ability_sensing_tremor : Entry.t :=
  {| Entry.id := "ability-sensing-tremor";
     Entry.type := "ability";
     Entry.name := "Sensing Tremor";
     Entry.summary := "Sense what creatures are within 1000 feet of you by channeling through the earth.";
     Entry.description := "You can spend a minute channeling your natural connection with the earth to send out a tremor that tells you what creatures are within 1000 feet of you";
     Entry.tags := ["type:ability"; "category:adventuring"; "source:race-geodran"];
     Entry.grantedBy := Some {| GrantedBy.type := "race"; GrantedBy.id := "race-geodran" |};
     Entry.source := None;
     Entry.version := None;
     Entry.createdAt := None;
     Entry.updatedAt := None;
     Entry.mechanics := AbilityM
       {| AbilityMechanics.category := Some "adventuring";
          AbilityMechanics.cost := None;
          AbilityMechanics.actionType := None;
          AbilityMechanics.range := None;
          AbilityMechanics.target := None;
          AbilityMechanics.duration := None;
          AbilityMechanics.cooldown := None;
          AbilityMechanics.rulesText := "You can spend a minute channeling your natural connection with the earth to send out a tremor that tells you what creatures are within 1000 feet of you" |};
     Entry.lore := None |}.

Definition ability_creeping_darkness : Entry.t :=
  {| Entry.id := "ability-creeping-darkness";
     Entry.type := "ability";
     Entry.name := "Creeping Darkness";
     Entry.summary := "Fill a 20-foot radius sphere with darkness that blinds creatures for 2 turns.";
     Entry.description := "Fill a 20 foot radius sphere with a cloud of darkness. Creatures within the darkness become Blinded unless they can see through darkness. The darkness cloud lasts for 2 turns.";
     Entry.tags := ["type:ability"; "category:combat"; "source:race-omr"];
     Entry.grantedBy := Some {| GrantedBy.type := "race"; GrantedBy.id := "race-omr" |};
     Entry.source := None;
     Entry.version := None;
     Entry.createdAt := None;
     Entry.updatedAt := None;
     Entry.mechanics := AbilityM
       {| AbilityMechanics.category := Some "combat";
          AbilityMechanics.cost := Some "No Cost";
          AbilityMechanics.actionType := Some "1 Action";
          AbilityMechanics.range := Some "Self";
          AbilityMechanics.target := None;
          AbilityMechanics.duration := Some "2 turns";
          AbilityMechanics.cooldown := Some "6 Turn Cooldown";
          AbilityMechanics.rulesText := "Fill a 20 foot radius sphere with a cloud of darkness. Creatures within the darkness become Blinded unless they can see through darkness. The darkness cloud lasts for 2 turns." |};
     Entry.lore := None |}.

Definition ability_omr_sight : Entry.t :=
  {| Entry.id := "ability-omr-sight";
     Entry.type := "ability";
     Entry.name := "Omr Sight";
     Entry.summary := "See in the dark as normal light, but suffer -1 Fatigue from prolonged sunlight.";
     Entry.description := "Your eyes have adapted to the darkness of night or caves. You are able to see in the dark as though it were normal light. Spending days and fighting in direct sunlight throughout the day causes -1 to Fatigue.";
     Entry.tags := ["type:ability"; "category:adventuring"; "source:race-omr"];
     Entry.grantedBy := Some {| GrantedBy.type := "race"; GrantedBy.id := "race-omr" |};
     Entry.source := None;
     Entry.version := None;
     Entry.createdAt := None;
     Entry.updatedAt := None;
     Entry.mechanics := AbilityM
       {| AbilityMechanics.category := Some "adventuring";
          AbilityMechanics.cost := None;
          AbilityMechanics.actionType := None;
          AbilityMechanics.range := None;
          AbilityMechanics.target := None;
          AbilityMechanics.duration := None;
          AbilityMechanics.cooldown := None;
          AbilityMechanics.rulesText := "Your eyes have adapted to the darkness of night or caves. You are able to see in the dark as though it were normal light. Spending days and fighting in direct sunlight throughout the day causes -1 to Fatigue." |};
     Entry.lore := None |}.

Definition ability_primal_roar_novice : Entry.t :=
  {| Entry.id := "ability-primal-roar-novice";
     Entry.type := "ability";
     Entry.name := "Primal Roar";
     Entry.summary := "Frighten a target within 30 feet for 3 turns.";
     Entry.description := "Let out an intense roar at a target within 30 feet. The creature becomes Frightened (MF) for the next 3 turns.";
     Entry.tags := ["type:ability"; "category:combat"; "source:race-wildeman"];
     Entry.grantedBy := Some {| GrantedBy.type := "race"; GrantedBy.id := "race-wildeman" |};
     Entry.source := None;
     Entry.version := None;
     Entry.createdAt := None;
     Entry.updatedAt := None;
     Entry.mechanics := AbilityM
       {| AbilityMechanics.category := Some "combat";
          AbilityMechanics.cost := Some "No Cost";
          AbilityMechanics.actionType := Some "1 Action";
          AbilityMechanics.range := Some "30 feet";
          AbilityMechanics.target := None;
          AbilityMechanics.duration := None;
          AbilityMechanics.cooldown := Some "3 Turn Cooldown";
          AbilityMechanics.rulesText := "Let out an intense roar at a target within 30 feet. The creature becomes Frightened (MF) for the next 3 turns." |};
     Entry.lore := None |}.

Definition ability_wild_form : Entry.t :=
  {| Entry.id := "ability-wild-form";
     Entry.type := "ability";
     Entry.name := "Wild Form";
     Entry.summary := "Spend Bend Luck to gain a chosen wild trait until you rest or change form.";
     Entry.description := "Use your ability of twisting the Fates to physically shift your form to exhibit wild traits. Use an instance of Bend Luck to gain the benefit until you rest or use another Bend Fate to change your form:
Climbing Appendages - Gain a Climb Speed equal to your Speed
Wild Leap - Gain ability to leap up to 20 feet
Swimming Appendages - Gain a Swim Speed equal to your Speed and gain the ability to breathe underwater
Wild Movement - Add 15 feet to your Speed
Beast of Burden - Double carrying capacity
Echolocation - gain blindsight up to 30 feet
Keen Hearing - Add 1d6 to Observation checks involving hearing
Keen Smell - Add 1d6 to Observation checks involving smell
Keen Sight - Add 1d6 to Observation checks involving sight";
     Entry.tags := ["type:ability"; "category:adventuring"; "source:race-wildeman"];
     Entry.grantedBy := Some {| GrantedBy.type := "race"; GrantedBy.id := "race-wildeman" |};
     Entry.source := None;
     Entry.version := None;
     Entry.createdAt := None;
     Entry.updatedAt := None;
     Entry.mechanics := AbilityM
       {| AbilityMechanics.category := Some "adventuring";
          AbilityMechanics.cost := None;
          AbilityMechanics.actionType := None;
          AbilityMechanics.range := None;
          AbilityMechanics.target := None;
          AbilityMechanics.duration := None;
          AbilityMechanics.cooldown := None;
          AbilityMechanics.rulesText := "Use your ability of twisting the Fates to physically shift your form to exhibit wild traits. Use an instance of Bend Luck to gain the benefit until you rest or use another Bend Fate to change your form:
Climbing Appendages - Gain a Climb Speed equal to your Speed
Wild Leap - Gain ability to leap up to 20 feet
Swimming Appendages - Gain a Swim Speed equal to your Speed and gain the ability to breathe underwater
Wild Movement - Add 15 feet to your Speed
Beast of Burden - Double carrying capacity
Echolocation - gain blindsight up to 30 feet
Keen Hearing - Add 1d6 to Observation checks involving hearing
Keen Smell - Add 1d6 to Observation checks involving smell
Keen Sight - Add 1d6 to Observation checks involving sight" |};
     Entry.lore := None |}.

Definition ability_seed_of_paranoia : Entry.t :=
  {| Entry.id := "ability-seed-of-paranoia";
     Entry.type := "ability";
     Entry.name := "Seed of Paranoia";
     Entry.summary := "Deal Shadow Damage and make a target Paranoid.";
     Entry.description := "Connect minds with a target within range, and psychically leave a seed of impending doom deep within the target’s psyche. The target takes 3+Willpower Shadow Damage and becomes Paranoid.";
     Entry.tags := ["type:ability"; "category:combat"; "source:race-thulhan"];
     Entry.grantedBy := Some {| GrantedBy.type := "race"; GrantedBy.id := "race-thulhan" |};
     Entry.source := None;
     Entry.version := None;
     Entry.createdAt := None;
     Entry.updatedAt := None;
     Entry.mechanics := AbilityM
       {| AbilityMechanics.category := Some "combat";
          AbilityMechanics.cost := Some "No Cost";
          AbilityMechanics.actionType := Some "1 Action";
          AbilityMechanics.range := Some "30 feet";
          AbilityMechanics.target := None;
          AbilityMechanics.duration := None;
          AbilityMechanics.cooldown := Some "6 Turn Cooldown";
          AbilityMechanics.rulesText := "Connect minds with a target within range, and psychically leave a seed of impending doom deep within the target’s psyche. The target takes 3+Willpower Shadow Damage and becomes Paranoid." |};
     Entry.lore := None |}.

Definition ability_thul_speech : Entry.t :=
  {| Entry.id := "ability-thul-speech";
     Entry.type := "ability";
     Entry.name := "Thul Speech";
     Entry.summary := "Telepathically communicate with a willing creature within 30 feet.";
     Entry.description := "You can reach out with your mind to a target within 30 feet of you. You are able to telepathically communicate with the creature back and forth if the creature opens their mind to yours and is willing to communicate. The creature must remain within 30 feet of you, and must be able to speak a language.";
     Entry.tags := ["type:ability"; "category:adventuring"; "source:race-thulhan"];
     Entry.grantedBy := Some {| GrantedBy.type := "race"; GrantedBy.id := "race-thulhan" |};
     Entry.source := None;
     Entry.version := None;
     Entry.createdAt := None;
     Entry.updatedAt := None;
     Entry.mechanics := AbilityM
       {| AbilityMechanics.category := Some "adventuring";
          AbilityMechanics.cost := None;
          AbilityMechanics.actionType := None;
          AbilityMechanics.range := None;
          AbilityMechanics.target := None;
          AbilityMechanics.duration := None;
          AbilityMechanics.cooldown := None;
          AbilityMechanics.rulesText := "You can reach out with your mind to a target within 30 feet of you. You are able to telepathically communicate with the creature back and forth if the creature opens their mind to yours and is willing to communicate. The creature must remain within 30 feet of you, and must be able to speak a language." |};
     Entry.lore := None |}.

Definition ability_sun_ray : Entry.t :=
  {| Entry.id := "ability-sun-ray";
     Entry.type := "ability";
     Entry.name := "Sun Ray";
     Entry.summary := "Fire a 30-foot line of sunlight that deals Light Damage and blinds targets.";
     Entry.description := "Release a 30 foot long, 5 foot wide line of powerful sunlight. Creatures hit by this line take 5+Willpower Light Damage and become Blinded (BF) until the start of your next turn.";
     Entry.tags := ["type:ability"; "category:combat"; "source:race-jackal"];
     Entry.grantedBy := Some {| GrantedBy.type := "race"; GrantedBy.id := "race-jackal" |};
     Entry.source := None;
     Entry.version := None;
     Entry.createdAt := None;
     Entry.updatedAt := None;
     Entry.mechanics := AbilityM
       {| AbilityMechanics.category := Some "combat";
          AbilityMechanics.cost := Some "No Cost";
          AbilityMechanics.actionType := Some "1 Action";
          AbilityMechanics.range := Some "Self";
          AbilityMechanics.target := None;
          AbilityMechanics.duration := None;
          AbilityMechanics.cooldown := Some "6 Turn Cooldown";
          AbilityMechanics.rulesText := "Release a 30 foot long, 5 foot wide line of powerful sunlight. Creatures hit by this line take 5+Willpower Light Damage and become Blinded (BF) until the start of your next turn." |};
     Entry.lore := None |}.

Definition ability_deaths_guise : Entry.t :=
  {| Entry.id := "ability-deaths-guise";
     Entry.type := "ability";
     Entry.name := "Death’s Guise";
     Entry.summary := "Gain an illusionary disguise and memories of a dead humanoid you touch.";
     Entry.description := "You gain the ability to touch a dead humanoid, you then gain the target’s voice, a few memories. You can then wrap yourself in an illusionary disguise that matches that of the dead target. This disguise is convincing, but under scrutiny can be fallible. If contested, Deception versus Intuition. You can use the illusion portion of this ability a number of times equal to your Deception Rank per day. You retain the guises gathered in this manner for as long as you desire.";
     Entry.tags := ["type:ability"; "category:adventuring"; "source:race-jackal"];
     Entry.grantedBy := Some {| GrantedBy.type := "race"; GrantedBy.id := "race-jackal" |};
     Entry.source := None;
     Entry.version := None;
     Entry.createdAt := None;
     Entry.updatedAt := None;
     Entry.mechanics := AbilityM
       {| AbilityMechanics.category := Some "adventuring";
          AbilityMechanics.cost := None;
          AbilityMechanics.actionType := None;
          AbilityMechanics.range := None;
          AbilityMechanics.target := None;
          AbilityMechanics.duration := None;
          AbilityMechanics.cooldown := None;
          AbilityMechanics.rulesText := "You gain the ability to touch a dead humanoid, you then gain the target’s voice, a few memories. You can then wrap yourself in an illusionary disguise that matches that of the dead target. This disguise is convincing, but under scrutiny can be fallible. If contested, Deception versus Intuition. You can use the illusion portion of this ability a number of times equal to your Deception Rank per day. You retain the guises gathered in this manner for as long as you desire." |};
     Entry.lore := None |}.

Definition abilities : gmap string Entry.t :=
  js_object [
    ("ability-tettari-blink", ability_tettari_blink);
    ("ability-tettari-stew", ability_tettari_stew);
    ("ability-unstoppable-charge", ability_unstoppable_charge);
    ("ability-word-of-honor", ability_word_of_honor);
    ("ability-touch-of-the-cosmos", ability_touch_of_the_cosmos);
    ("ability-arcane-intuition", ability_arcane_intuition);
    ("ability-wulkaran-rage", ability_wulkaran_rage);
    ("ability-wulkaran-senses", ability_wulkaran_senses);
    ("ability-ignis-unleashed", ability_ignis_unleashed);
    ("ability-fire-in-their-eye", ability_fire_in_their_eye);
    ("ability-internal-spark", ability_internal_spark);
    ("ability-spark-of-life", ability_spark_of_life);
    ("ability-aggressive-surge", ability_aggressive_surge);
    ("ability-endari-tentacles", ability_endari_tentacles);
    ("ability-barkskin", ability_barkskin);
    ("ability-feyrdrin-footing", ability_feyrdrin_footing);
    ("ability-earth-tremor", ability_earth_tremor);
    ("ability-sensing-tremor", ability_sensing_tremor);
    ("ability-creeping-darkness", ability_creeping_darkness);
    ("ability-omr-sight", ability_omr_sight);
    ("ability-primal-roar-novice", ability_primal_roar_novice);
    ("ability-wild-form", ability_wild_form);
    ("ability-seed-of-paranoia", ability_seed_of_paranoia);
    ("ability-thul-speech", ability_thul_speech);
    ("ability-sun-ray", ability_sun_ray);
    ("ability-deaths-guise", ability_deaths_guise)
  ].

Definition items : gmap string Entry.t := js_object [].

Definition professions : gmap string Entry.t := js_object [].

Definition GRPG_LIBRARY : Library.t :=
  {| Library.meta := None;
     Library.tags := TAG_DEFINITIONS;
     Library.races := races;
     Library.classes := classes;
     Library.origins := origins;
     Library.circles := circles;
     Library.traits := traits;
     Library.abilities := abilities;
     Library.items := items;
     Library.professions := professions |}.

End LibraryJs.

(** ** The dataset of [GRPGLibrary0.0.1.js]

    [export const TAG_DEFINITIONS] and [export const GRPG_LIBRARY]. *)

Module GRPGLibrary001.

Definition TAG_DEFINITIONS : gmap string Tag.t :=
  js_object [
    ("type:race",
     {| Tag.category := "type";
        Tag.description := "Marks a record as a Race (e.g., Tettari, Feyrdrin, Wildeman)." |});
    ("type:class",
     {| Tag.category := "type";
        Tag.description := "Marks a record as a Class (e.g., Ranger, Warden, Arcanist)." |});
    ("type:origin",
     {| Tag.category := "type";
        Tag.description := "Marks a record as an Origin / background-style record." |});
    ("type:circle",
     {| Tag.category := "type";
        Tag.description := "Marks a record as a Circle (GRPG magic / specialty groups)." |});
    ("type:trait",
     {| Tag.category := "type";
        Tag.description := "Marks a record as an Adventuring Trait (passive bonuses)." |});
    ("type:ability",
     {| Tag.category := "type";
        Tag.description := "Marks a record as an Adventuring Ability (active moves)." |});
    ("type:item",
     {| Tag.category := "type";
        Tag.description := "Marks a record as an item (weapon, armor, gear, etc.)." |});
    ("type:profession",
     {| Tag.category := "type";
        Tag.description := "Marks a record as a Profession / non-combat role." |});
    ("faction:wardens",
     {| Tag.category := "faction";
        Tag.description := "Belongs to or is strongly associated with the Wardens." |});
    ("faction:underground",
     {| Tag.category := "faction";
        Tag.description := "Tied to underground-focused groups, cultures, or powers." |});
    ("faction:neutral",
     {| Tag.category := "faction";
        Tag.description := "Deliberately neutral / unaffiliated with major factions." |});
    ("realm:surface",
     {| Tag.category := "realm";
        Tag.description := "Primarily associated with surface regions of Daelinar." |});
    ("realm:underground",
     {| Tag.category := "realm";
        Tag.description := "Primarily associated with subterranean regions." |});
    ("realm:astral",
     {| Tag.category := "realm";
        Tag.description := "Associated with astral / Weave / fleet contexts." |});
    ("role:martial",
     {| Tag.category := "role";
        Tag.description := "Focuses on physical combat, weapons, toughness." |});
    ("role:skirmisher",
     {| Tag.category := "role";
        Tag.description := "Mobile, hit-and-run, often ranged or agile melee." |});
    ("role:caster",
     {| Tag.category := "role";
        Tag.description := "Primarily interacts with the Weave / magic systems." |});
    ("role:support",
     {| Tag.category := "role";
        Tag.description := "Buffs allies, debuffs enemies, or controls the field." |});
    ("role:utility",
     {| Tag.category := "role";
        Tag.description := "Primarily provides exploration, social, or non-combat tools." |});
    ("tier:basic",
     {| Tag.category := "tier";
        Tag.description := "Starting-level content, safe for new characters." |});
    ("tier:advanced",
     {| Tag.category := "tier";
        Tag.description := "Mid-level power, requires some character progression." |});
    ("tier:elite",
     {| Tag.category := "tier";
        Tag.description := "High-level / rare content; powerful or campaign-defining." |});
    ("status:core",
     {| Tag.category := "status";
        Tag.description := "Core rulebook content; stable and part of the main game." |});
    ("status:playtest",
     {| Tag.category := "status";
        Tag.description := "Experimental content; subject to change or removal." |});
    ("source:core-rulebook",
     {| Tag.category := "source";
        Tag.description := "Published in the main GRPG Core Rulebook." |});
    ("source:supplement:wardens",
     {| Tag.category := "source";
        Tag.description := "From a Wardens-focused supplement or expansion." |})
  ].

Definition race_tettari : Entry.t :=
  {| Entry.id := "race-tettari";
     Entry.type := "race";
     Entry.name := "Tettari";
     Entry.summary := "Small, resilient survivors attuned to the broken ley-beasts.";
     Entry.description := "The Tettari are nimble survivors shaped by the chaos of ruptured ley-lines. Their sharp eyes and steady hands make them exceptional archers.";
     Entry.tags := ["type:race"; "realm:surface"; "role:skirmisher"; "status:core"];
     Entry.grantedBy := None;
     Entry.source := Some {| Source.book := "Core Rulebook"; Source.page := Some 42%Z |};
     Entry.version := Some {| Version.major := 1%Z; Version.minor := 0%Z |};
     Entry.createdAt := Some "2025-11-24";
     Entry.updatedAt := Some "2025-11-24";
     Entry.mechanics := RaceM
       {| RaceMechanics.attributeMods := Some (js_object [("agility", 2%Z); ("willpower", 1%Z)]);
          RaceMechanics.baseSpeed := Some 6%Z;
          RaceMechanics.baseSpeedFeet := None;
          RaceMechanics.senses := Some ["low-light vision"];
          RaceMechanics.innateTraits := Some ["trait-tettari-survivor"];
          RaceMechanics.innateAbilities := Some [] |};
     Entry.lore := Some
       {| Lore.homeland := Some "Shattered Wilds of Daelinar";
          Lore.cultureNotes := Some "Tettari communities prize agility, marksmanship, and clever trickery. Many are drawn into the Wardens as scouts.";
          Lore.appearanceNotes := Some "Short and lean, with bright eyes that seem to track motion before it happens." |} |}.

Definition races : gmap string Entry.t :=
  js_object [
    ("race-tettari", race_tettari)
  ].

Definition class_warden : Entry.t :=
  {| Entry.id := "class-warden";
     Entry.type := "class";
     Entry.name := "Warden";
     Entry.summary := "Guardian of the broken wilds, balancing steel, instinct, and Weave.";
     Entry.description := "Wardens patrol the fractures of Daelinar, hunting warped beasts and safeguarding settlements. They blend martial prowess with attunement to the land and the Weave.";
     Entry.tags := ["type:class"; "faction:wardens"; "role:martial"; "role:utility"; "status:core"];
     Entry.grantedBy := None;
     Entry.source := Some {| Source.book := "Core Rulebook"; Source.page := Some 80%Z |};
     Entry.version := Some {| Version.major := 1%Z; Version.minor := 0%Z |};
     Entry.createdAt := Some "2025-11-24";
     Entry.updatedAt := Some "2025-11-24";
     Entry.mechanics := ClassM
       {| ClassMechanics.primaryRoles := ["role:martial"; "role:utility"];
          ClassMechanics.hitDie := Some "d10";
          ClassMechanics.resourceModel := Some "vigilance";
          ClassMechanics.startingTraits := Some ["trait-hunter-sense"];
          ClassMechanics.startingAbilities := Some ["ability-mark-prey"];
          ClassMechanics.progressionNotes := Some "Wardens gain new ways to control terrain, hunt ley-twisted creatures, and protect allies as they advance." |};
     Entry.lore := None |}.

Definition classes : gmap string Entry.t :=
  js_object [
    ("class-warden", class_warden)
  ].

Definition origins : gmap string Entry.t := js_object [].

Definition circles : gmap string Entry.t := js_object [].

Definition trait_tettari_survivor : Entry.t :=
  {| Entry.id := "trait-tettari-survivor";
     Entry.type := "trait";
     Entry.name := "Tettari Survivor";
     Entry.summary := "You’re hard to kill and harder to corner.";
     Entry.description := "You’ve learned to read danger and slip away before it closes its jaws. Tettari often survive what would annihilate others.";
     Entry.tags := ["type:trait"; "tier:basic"; "realm:surface"; "status:core"];
     Entry.grantedBy := None;
     Entry.source := Some {| Source.book := "Core Rulebook"; Source.page := Some 43%Z |};
     Entry.version := Some {| Version.major := 1%Z; Version.minor := 0%Z |};
     Entry.createdAt := Some "2025-11-24";
     Entry.updatedAt := Some "2025-11-24";
     Entry.mechanics := TraitM
       {| TraitMechanics.rulesText := "When you would be reduced to 0 vitality by a single hit, you may instead drop to 1 vitality once per rest. In addition, you gain advantage on checks to notice ambushes or environmental hazards." |};
     Entry.lore := None |}.

Definition traits : gmap string Entry.t :=
  js_object [
    ("trait-tettari-survivor", trait_tettari_survivor)
  ].

Definition ability_mark_prey : Entry.t :=
  {| Entry.id := "ability-mark-prey";
     Entry.type := "ability";
     Entry.name := "Mark Prey";
     Entry.summary := "Single out a target and hunt them relentlessly.";
     Entry.description := "You fix your attention on a single foe, reading their tells and exploiting every misstep.";
     Entry.tags := ["type:ability"; "role:skirmisher"; "role:martial"; "tier:basic"; "status:core"];
     Entry.grantedBy := None;
     Entry.source := Some {| Source.book := "Core Rulebook"; Source.page := Some 81%Z |};
     Entry.version := Some {| Version.major := 1%Z; Version.minor := 0%Z |};
     Entry.createdAt := Some "2025-11-24";
     Entry.updatedAt := Some "2025-11-24";
     Entry.mechanics := AbilityM
       {| AbilityMechanics.category := None;
          AbilityMechanics.cost := None;
          AbilityMechanics.actionType := Some "action";
          AbilityMechanics.range := Some "line of sight";
          AbilityMechanics.target := Some "one creature you can see";
          AbilityMechanics.duration := Some "scene";
          AbilityMechanics.cooldown := None;
          AbilityMechanics.rulesText := "Choose a creature you can see and mark it as your prey. While the mark lasts, you gain a bonus to checks and attacks made to track, pursue, or harm that creature. If you mark a new target, the old mark ends." |};
     Entry.lore := None |}.

Definition abilities : gmap string Entry.t :=
  js_object [
    ("ability-mark-prey", ability_mark_prey)
  ].

Definition items : gmap string Entry.t := js_object [].

Definition professions : gmap string Entry.t := js_object [].

Definition GRPG_LIBRARY : Library.t :=
  {| Library.meta := Some
       {| Meta.schemaVersion := "1.0.0";
          Meta.dataVersion := "0.1.0";
          Meta.lastUpdated := "2025-11-24";
          Meta.notes := "Initial skeleton for the G RPG Library. Fill categories gradually." |};
     Library.tags := TAG_DEFINITIONS;
     Library.races := races;
     Library.classes := classes;
     Library.origins := origins;
     Library.circles := circles;
     Library.traits := traits;
     Library.abilities := abilities;
     Library.items := items;
     Library.professions := professions |}.

End GRPGLibrary001.

(** ** The dataset of the unnamed file [part_000]

    [const TAG_DEFINITIONS], and an object literal assigned to
    [window.GRPG_LIBRARY]. *)

Module Part000.

Definition TAG_DEFINITIONS : gmap string Tag.t :=
  js_object [
    ("type:race",
     {| Tag.category := "type";
        Tag.description := "Marks a record as a Race (e.g., Tettari, Feyrdrin, Wildeman)." |});
    ("type:class",
     {| Tag.category := "type";
        Tag.description := "Marks a record as a Class (e.g., Ranger, Warden, Arcanist)." |});
    ("type:origin",
     {| Tag.category := "type";
        Tag.description := "Marks a record as an Origin / background-style record." |});
    ("type:circle",
     {| Tag.category := "type";
        Tag.description := "Marks a record as a Circle (GRPG magic / specialty groups)." |});
    ("type:trait",
     {| Tag.category := "type";
        Tag.description := "Marks a record as an Adventuring Trait (passive bonuses)." |});
    ("type:ability",
     {| Tag.category := "type";
        Tag.description := "Marks a record as an Adventuring Ability (active moves)." |});
    ("type:item",
     {| Tag.category := "type";
        Tag.description := "Marks a record as an item (weapon, armor, gear, etc.)." |});
    ("type:profession",
     {| Tag.category := "type";
        Tag.description := "Marks a record as a Profession / non-combat role." |});
    ("faction:wardens",
     {| Tag.category := "faction";
        Tag.description := "Belongs to or is strongly associated with the Wardens." |});
    ("faction:underground",
     {| Tag.category := "faction";
        Tag.description := "Tied to underground-focused groups, cultures, or powers." |});
    ("faction:neutral",
     {| Tag.category := "faction";
        Tag.description := "Deliberately neutral / unaffiliated with major factions." |});
    ("realm:surface",
     {| Tag.category := "realm";
        Tag.description := "Primarily associated with surface regions of Daelinar." |});
    ("realm:underground",
     {| Tag.category := "realm";
        Tag.description := "Primarily associated with subterranean regions." |});
    ("realm:astral",
     {| Tag.category := "realm";
        Tag.description := "Associated with astral / Weave / fleet contexts." |});
    ("role:martial",
     {| Tag.category := "role";
        Tag.description := "Focuses on physical combat, weapons, toughness." |});
    ("role:skirmisher",
     {| Tag.category := "role";
        Tag.description := "Mobile, hit-and-run, often ranged or agile melee." |});
    ("role:caster",
     {| Tag.category := "role";
        Tag.description := "Primarily interacts with the Weave / magic systems." |});
    ("role:support",
     {| Tag.category := "role";
        Tag.description := "Buffs allies, debuffs enemies, or controls the field." |});
    ("role:utility",
     {| Tag.category := "role";
        Tag.description := "Primarily provides exploration, social, or non-combat tools." |});
    ("tier:basic",
     {| Tag.category := "tier";
        Tag.description := "Starting-level content, safe for new characters." |});
    ("tier:advanced",
     {| Tag.category := "tier";
        Tag.description := "Mid-level power, requires some character progression." |});
    ("tier:elite",
     {| Tag.category := "tier";
        Tag.description := "High-level / rare content; powerful or campaign-defining." |});
    ("status:core",
     {| Tag.category := "status";
        Tag.description := "Core rulebook content; stable and part of the main game." |});
    ("status:playtest",
     {| Tag.category := "status";
        Tag.description := "Experimental content; subject to change or removal." |});
    ("source:core-rulebook",
     {| Tag.category := "source";
        Tag.description := "Published in the main GRPG Core Rulebook." |});
    ("source:supplement:wardens",
     {| Tag.category := "source";
        Tag.description := "From a Wardens-focused supplement or expansion." |})
  ].

Definition race_tettari : Entry.t :=
  {| Entry.id := "race-tettari";
     Entry.type := "race";
     Entry.name := "Tettari";
     Entry.summary := "Small, resilient survivors attuned to the broken ley-beasts.";
     Entry.description := "The Tettari are nimble survivors shaped by the chaos of ruptured ley-lines. Their sharp eyes and steady hands make them exceptional archers.";
     Entry.tags := ["type:race"; "realm:surface"; "role:skirmisher"; "status:core"];
     Entry.grantedBy := None;
     Entry.source := Some {| Source.book := "Core Rulebook"; Source.page := Some 42%Z |};
     Entry.version := Some {| Version.major := 1%Z; Version.minor := 0%Z |};
     Entry.createdAt := Some "2025-11-24";
     Entry.updatedAt := Some "2025-11-24";
     Entry.mechanics := RaceM
       {| RaceMechanics.attributeMods := Some (js_object [("agility", 2%Z); ("willpower", 1%Z)]);
          RaceMechanics.baseSpeed := Some 6%Z;
          RaceMechanics.baseSpeedFeet := None;
          RaceMechanics.senses := Some ["low-light vision"];
          RaceMechanics.innateTraits := Some ["trait-tettari-survivor"];
          RaceMechanics.innateAbilities := Some [] |};
     Entry.lore := Some
       {| Lore.homeland := Some "Shattered Wilds of Daelinar";
          Lore.cultureNotes := Some "Tettari communities prize agility, marksmanship, and clever trickery. Many are drawn into the Wardens as scouts.";
          Lore.appearanceNotes := Some "Short and lean, with bright eyes that seem to track motion before it happens." |} |}.

Definition races : gmap string Entry.t :=
  js_object [
    ("race-tettari", race_tettari)
  ].

Definition class_warden : Entry.t :=
  {| Entry.id := "class-warden";
     Entry.type := "class";
     Entry.name := "Warden";
     Entry.summary := "Guardian of the broken wilds, balancing steel, instinct, and Weave.";
     Entry.description := "Wardens patrol the fractures of Daelinar, hunting warped beasts and safeguarding settlements. They blend martial prowess with attunement to the land and the Weave.";
     Entry.tags := ["type:class"; "faction:wardens"; "role:martial"; "role:utility"; "status:core"];
     Entry.grantedBy := None;
     Entry.source := Some {| Source.book := "Core Rulebook"; Source.page := Some 80%Z |};
     Entry.version := Some {| Version.major := 1%Z; Version.minor := 0%Z |};
     Entry.createdAt := Some "2025-11-24";
     Entry.updatedAt := Some "2025-11-24";
     Entry.mechanics := ClassM
       {| ClassMechanics.primaryRoles := ["role:martial"; "role:utility"];
          ClassMechanics.hitDie := Some "d10";
          ClassMechanics.resourceModel := Some "vigilance";
          ClassMechanics.startingTraits := Some ["trait-hunter-sense"];
          ClassMechanics.startingAbilities := Some ["ability-mark-prey"];
          ClassMechanics.progressionNotes := Some "Wardens gain new ways to control terrain, hunt ley-twisted creatures, and protect allies as they advance." |};
     Entry.lore := None |}.

Definition classes : gmap string Entry.t :=
  js_object [
    ("class-warden", class_warden)
  ].

Definition origins : gmap string Entry.t := js_object [].

Definition circles : gmap string Entry.t := js_object [].

Definition trait_tettari_survivor : Entry.t :=
  {| Entry.id := "trait-tettari-survivor";
     Entry.type := "trait";
     Entry.name := "Tettari Survivor";
     Entry.summary := "You’re hard to kill and harder to corner.";
     Entry.description := "You’ve learned to read danger and slip away before it closes its jaws. Tettari often survive what would annihilate others.";
     Entry.tags := ["type:trait"; "tier:basic"; "realm:surface"; "status:core"];
     Entry.grantedBy := None;
     Entry.source := Some {| Source.book := "Core Rulebook"; Source.page := Some 43%Z |};
     Entry.version := Some {| Version.major := 1%Z; Version.minor := 0%Z |};
     Entry.createdAt := Some "2025-11-24";
     Entry.updatedAt := Some "2025-11-24";
     Entry.mechanics := TraitM
       {| TraitMechanics.rulesText := "When you would be reduced to 0 vitality by a single hit, you may instead drop to 1 vitality once per rest. In addition, you gain advantage on checks to notice ambushes or environmental hazards." |};
     Entry.lore := None |}.

Definition traits : gmap string Entry.t :=
  js_object [
    ("trait-tettari-survivor", trait_tettari_survivor)
  ].

Definition ability_mark_prey : Entry.t :=
  {| Entry.id := "ability-mark-prey";
     Entry.type := "ability";
     Entry.name := "Mark Prey";
     Entry.summary := "Single out a target and hunt them relentlessly.";
     Entry.description := "You fix your attention on a single foe, reading their tells and exploiting every misstep.";
     Entry.tags := ["type:ability"; "role:skirmisher"; "role:martial"; "tier:basic"; "status:core"];
     Entry.grantedBy := None;
     Entry.source := Some {| Source.book := "Core Rulebook"; Source.page := Some 81%Z |};
     Entry.version := Some {| Version.major := 1%Z; Version.minor := 0%Z |};
     Entry.createdAt := Some "2025-11-24";
     Entry.updatedAt := Some "2025-11-24";
     Entry.mechanics := AbilityM
       {| AbilityMechanics.category := None;
          AbilityMechanics.cost := None;
          AbilityMechanics.actionType := Some "action";
          AbilityMechanics.range := Some "line of sight";
          AbilityMechanics.target := Some "one creature you can see";
          AbilityMechanics.duration := Some "scene";
          AbilityMechanics.cooldown := None;
          AbilityMechanics.rulesText := "Choose a creature you can see and mark it as your prey. While the mark lasts, you gain a bonus to checks and attacks made to track, pursue, or harm that creature. If you mark a new target, the old mark ends." |};
     Entry.lore := None |}.

Definition abilities : gmap string Entry.t :=
  js_object [
    ("ability-mark-prey", ability_mark_prey)
  ].

Definition items : gmap string Entry.t := js_object [].

Definition professions : gmap string Entry.t := js_object [].

Definition GRPG_LIBRARY : Library.t :=
  {| Library.meta := Some
       {| Meta.schemaVersion := "1.0.0";
          Meta.dataVersion := "0.1.0";
          Meta.lastUpdated := "2025-11-24";
          Meta.notes := "Initial skeleton for the G RPG Library. Fill categories gradually." |};
     Library.tags := TAG_DEFINITIONS;
     Library.races := races;
     Library.classes := classes;
     Library.origins := origins;
     Library.circles := circles;
     Library.traits := traits;
     Library.abilities := abilities;
     Library.items := items;
     Library.professions := professions |}.

End Part000.

(** ** The three datasets, side by side *)

Inductive Dataset : Type :=
  | library_js          (* library.js *)
  | GRPGLibrary_0_0_1   (* GRPGLibrary0.0.1.js *)
  | part_000.           (* the unnamed file, which assigns window.GRPG_LIBRARY *)

Definition library (d : Dataset) : Library.t :=
  match d with
  | library_js => LibraryJs.GRPG_LIBRARY
  | GRPGLibrary_0_0_1 => GRPGLibrary001.GRPG_LIBRARY
  | part_000 => Part000.GRPG_LIBRARY
  end.

Definition tag_definitions (d : Dataset) : gmap string Tag.t :=
  match d with
  | library_js => LibraryJs.TAG_DEFINITIONS
  | GRPGLibrary_0_0_1 => GRPGLibrary001.TAG_DEFINITIONS
  | part_000 => Part000.TAG_DEFINITIONS
  end.

(** The category buckets of a library in the order the root object lists
    them, each paired with the [type] its records are documented to carry
    (the SHAPE comment of every bucket fixes it: [type: "race"] in [races],
    [type: "class"] in [classes], and so on). *)
Definition buckets (lib : Library.t) : list (string * gmap string Entry.t) :=
  [ ("race", Library.races lib);
    ("class", Library.classes lib);
    ("origin", Library.origins lib);
    ("circle", Library.circles lib);
    ("trait", Library.traits lib);
    ("ability", Library.abilities lib);
    ("item", Library.items lib);
    ("profession", Library.professions lib) ].

(** ** Reading reference fields

    [r.mechanics.innateTraits] and its siblings, read the way a consumer of
    the library reads them: a field that is absent (or a [mechanics] block of
    another category) holds no identifier. *)

Definition innateTraits (r : Entry.t) : list string :=
  match Entry.mechanics r with
  | RaceM m => default [] (RaceMechanics.innateTraits m)
  | _ => []
  end.

Definition innateAbilities (r : Entry.t) : list string :=
  match Entry.mechanics r with
  | RaceM m => default [] (RaceMechanics.innateAbilities m)
  | _ => []
  end.

Definition startingTraits (r : Entry.t) : list string :=
  match Entry.mechanics r with
  | ClassM m => default [] (ClassMechanics.startingTraits m)
  | _ => []
  end.

Definition startingAbilities (r : Entry.t) : list string :=
  match Entry.mechanics r with
  | ClassM m => default [] (ClassMechanics.startingAbilities m)
  | _ => []
  end.

Definition attributeMods (r : Entry.t) : gmap string Z :=
  match Entry.mechanics r with
  | RaceM m => default ∅ (RaceMechanics.attributeMods m)
  | _ => ∅
  end.

(** ** Integrity properties *)

(** An identifier resolves in a bucket when the bucket has a record under
    that key. *)
Definition resolves (bucket : gmap string Entry.t) (ident : string) : Prop :=
  is_Some (bucket !! ident).

(** A [grantedBy] link resolves when its [type] names a bucket and its [id]
    is a key of that bucket. *)
Definition grantedBy_resolves (lib : Library.t) (g : GrantedBy.t) : Prop :=
  Exists (λ b, b.1 = GrantedBy.type g ∧ resolves b.2 (GrantedBy.id g))
         (buckets lib).

(** Reference closure of one library. *)
Definition reference_closure (lib : Library.t) : Prop :=
  (∀ k r, Library.races lib !! k = Some r →
     Forall (resolves (Library.traits lib)) (innateTraits r) ∧
     Forall (resolves (Library.abilities lib)) (innateAbilities r)) ∧
  (∀ k r, Library.classes lib !! k = Some r →
     Forall (resolves (Library.traits lib)) (startingTraits r) ∧
     Forall (resolves (Library.abilities lib)) (startingAbilities r)) ∧
  (∀ k r g, Library.abilities lib !! k = Some r →
     Entry.grantedBy r = Some g → grantedBy_resolves lib g).

(** Tag closure of one library: every tag a record carries is a key of the
    tag dictionary. *)
Definition tag_closure (lib : Library.t) : Prop :=
  ∀ ty b k r t,
    (ty, b) ∈ buckets lib → b !! k = Some r → t ∈ Entry.tags r →
    is_Some (Library.tags lib !! t).

(** Back-reference symmetry of one library: an ability granted by a race is
    listed among that race's innate abilities. *)
Definition back_reference_symmetry (lib : Library.t) : Prop :=
  ∀ k a g,
    Library.abilities lib !! k = Some a →
    Entry.grantedBy a = Some g → GrantedBy.type g = "race" →
    ∃ race, Library.races lib !! GrantedBy.id g = Some race ∧
            Entry.id a ∈ innateAbilities race.

(** The part of a tag name before its first colon; [None] when the name has
    no colon. *)
Fixpoint before_colon (s : string) : option string :=
  match s with
  | EmptyString => None
  | String c rest =>
      if Ascii.eqb c ":"%char then Some EmptyString
      else String c <$> before_colon rest
  end.

(** The id pattern [lowercase-with-dashes]. *)
Definition lowercase_or_dash (c : ascii) : bool :=
  Ascii.eqb c "-"%char || ((97 <=? nat_of_ascii c)%nat && (nat_of_ascii c <=? 122)%nat).

Fixpoint lowercase_with_dashes (s : string) : bool :=
  match s with
  | EmptyString => true
  | String c rest => lowercase_or_dash c && lowercase_with_dashes rest
  end.

(** A key of [attributeMods] belongs to a choice group when it ends in an
    underscore followed by one uppercase letter; the letter names the group. *)
Definition is_uppercase (c : ascii) : bool :=
  (65 <=? nat_of_ascii c)%nat && (nat_of_ascii c <=? 90)%nat.

Fixpoint choice_suffix (key : string) : option ascii :=
  match key with
  | EmptyString => None
  | String c rest =>
      match c, rest with
      | "_"%char, String letter EmptyString =>
          if is_uppercase letter then Some letter else None
      | _, _ => choice_suffix rest
      end
  end.

(** The keys of a mapping that belong to the choice group of a letter. *)
Definition choice_group (mods : gmap string Z) (letter : ascii) : gset string :=
  filter (λ key, choice_suffix key = Some letter) (dom mods).

(** ** Content Store *)

(** Modelled from the spec: the Content Store and its [add], [get] and
    [allOf] operations.  No file of the repository implements them (the three
    files only build the data above), so the definitions follow the spec's
    contract of the store: a pure container of records grouped by category,
    kept in insertion order, that refuses an insertion only when the id is
    already taken in the same category. *)
Module ContentStore.

Inductive Category : Type :=
  | Races | Classes | Origins | Circles | Traits | Abilities | Items
  | Professions.

#[global] Instance Category_eq_dec : EqDecision Category.
Proof. solve_decision. Defined.

(** The store holds the inserted [(category, record)] pairs, oldest first. *)
Definition Store : Type := list (Category * Entry.t).

Definition empty : Store := [].

Inductive Outcome : Type :=
  | Inserted
  | DuplicateId.

(** [allOf(category)]: the records of a category in insertion order. *)
Definition allOf (c : Category) (s : Store) : list Entry.t :=
  snd <$> filter (λ p, p.1 = c) s.

(** [get(category, id)]: the record stored under an id, or [None] for
    NotFound. *)
Definition get (c : Category) (ident : string) (s : Store) : option Entry.t :=
  snd <$> list_find (λ r, Entry.id r = ident) (allOf c s).

(** [add(category, record)]: the outcome and the store after the call. *)
Definition add (c : Category) (r : Entry.t) (s : Store) : Outcome * Store :=
  match get c (Entry.id r) s with
  | Some _ => (DuplicateId, s)
  | None => (Inserted, (s ++ [(c, r)])%list)
  end.

End ContentStore.

(** ** Further vocabulary for the records *)

#[global] Instance GrantedBy_eq_dec : EqDecision GrantedBy.t.
Proof. solve_decision. Defined.

(** The [mechanics] block of an ability, when the record has one. *)
Definition abilityMechanics (r : Entry.t) : option AbilityMechanics.t :=
  match Entry.mechanics r with
  | AbilityM m => Some m
  | _ => None
  end.

(** [r.mechanics.category], [r.mechanics.rulesText] and
    [r.mechanics.primaryRoles], absent (or empty) when the block has no such
    field. *)
Definition mechanicsCategory (r : Entry.t) : option string :=
  abilityMechanics r ≫= AbilityMechanics.category.

Definition rulesText (r : Entry.t) : option string :=
  match Entry.mechanics r with
  | TraitM m => Some (TraitMechanics.rulesText m)
  | AbilityM m => Some (AbilityMechanics.rulesText m)
  | _ => None
  end.

Definition primaryRoles (r : Entry.t) : list string :=
  match Entry.mechanics r with
  | ClassM m => ClassMechanics.primaryRoles m
  | _ => []
  end.

(** The two shapes an ability's [mechanics] block takes in [library.js]: a
    combat ability spells out its action economy, an adventuring ability has
    its rules text only. *)
Definition combat_shape (m : AbilityMechanics.t) : Prop :=
  AbilityMechanics.category m = Some "combat" ∧
  AbilityMechanics.cost m = Some "No Cost" ∧
  is_Some (AbilityMechanics.actionType m) ∧
  is_Some (AbilityMechanics.range m) ∧
  is_Some (AbilityMechanics.cooldown m).

Definition adventuring_shape (m : AbilityMechanics.t) : Prop :=
  AbilityMechanics.category m = Some "adventuring" ∧
  AbilityMechanics.cost m = None ∧
  AbilityMechanics.actionType m = None ∧
  AbilityMechanics.range m = None ∧
  AbilityMechanics.duration m = None ∧
  AbilityMechanics.cooldown m = None.

(** The abilities of a library whose [grantedBy] names a given race. *)
Definition granted_by_race (lib : Library.t) (raceId : string)
  : gmap string Entry.t :=
  filter (λ kr, Entry.grantedBy kr.2
                = Some {| GrantedBy.type := "race"; GrantedBy.id := raceId |})
         (Library.abilities lib).

(** The id a display name suggests: letters in lowercase, a dash for every
    space, every other character dropped. *)
Definition slug_char (c : ascii) : list ascii :=
  if is_uppercase c then [ascii_of_nat (nat_of_ascii c + 32)]
  else if ((97 <=? nat_of_ascii c)%nat && (nat_of_ascii c <=? 122)%nat)
  then [c]
  else if Ascii.eqb c " "%char then ["-"%char]
  else [].

Definition slug (name : string) : string :=
  string_of_list_ascii (flat_map slug_char (list_ascii_of_string name)).

(** The bonuses of an [attributeMods] mapping that are below five, added up,
    and the bonuses from five on. *)
Definition small_bonus_total (mods : gmap string Z) : Z :=
  map_fold (λ _ v total, if decide (v < 5)%Z then (v + total)%Z else total)
           0%Z mods.

Definition large_bonuses (mods : gmap string Z) : gmap string Z :=
  filter (λ kv, (5 ≤ kv.2)%Z) mods.

(** ** Making the data visible on [window] *)

(** The last statement of [library.js]:
    [if (typeof window !== "undefined") { window.TAG_DEFINITIONS =
    TAG_DEFINITIONS; window.GRPG_LIBRARY = GRPG_LIBRARY; }].  The host either
    has a [window] object, with whatever properties it holds already, or has
    none. *)
Module Host.

Inductive Value : Type :=
  | TagDictionary (tags : gmap string Tag.t)
  | LibraryRoot (lib : Library.t)
  | Foreign (v : Z).

Definition window_export (window : option (gmap string Value))
  : option (gmap string Value) :=
  match window with
  | Some w =>
      Some (<["GRPG_LIBRARY" := LibraryRoot LibraryJs.GRPG_LIBRARY]>
              (<["TAG_DEFINITIONS" := TagDictionary LibraryJs.TAG_DEFINITIONS]>
                 w))
  | None => None
  end.

End Host.

(** * Proofs *)

(** ** Object literals *)

Example js_object_last_wins :
  js_object [("k", 1%Z); ("other", 5%Z); ("k", 2%Z)] !! "k" = Some 2%Z.
Proof. reflexivity. Qed.

(** ** Deciding a property of every entry by evaluation

    The datasets are closed terms, so a decidable property of all the
    entries of a dictionary, or of all the records of all the buckets, is
    settled by running its decision procedure. *)

Ltac decide_by_evaluation :=
  cbv beta; apply (bool_decide_unpack _); vm_compute; exact I.

Lemma buckets_Forall (P : string → string → Entry.t → Prop) (lib : Library.t) :
  Forall (λ b, map_Forall (P b.1) b.2) (buckets lib) →
  ∀ ty b k r, (ty, b) ∈ buckets lib → b !! k = Some r → P ty k r.
Proof.
  intros Hall ty b k r Hb Hk.
  rewrite Forall_forall in Hall.
  exact (Hall (ty, b) Hb k r Hk).
Qed.

Lemma tag_definitions_shipped (d : Dataset) :
  Library.tags (library d) = tag_definitions d.
Proof. by destruct d. Qed.

Lemma bucket_races lib : ("race", Library.races lib) ∈ buckets lib.
Proof. unfold buckets. set_solver. Qed.

Lemma bucket_classes lib : ("class", Library.classes lib) ∈ buckets lib.
Proof. unfold buckets. set_solver. Qed.

Lemma bucket_traits lib : ("trait", Library.traits lib) ∈ buckets lib.
Proof. unfold buckets. set_solver. Qed.

Lemma bucket_abilities lib : ("ability", Library.abilities lib) ∈ buckets lib.
Proof. unfold buckets. set_solver. Qed.

(** ** Key–id agreement *)

(** C9. In every category bucket of every dataset, the record stored under
    a key [k] has [k] as its [id] field. *)
Theorem key_id_agreement (d : Dataset) (ty : string)
    (b : gmap string Entry.t) (k : string) (r : Entry.t) :
  (ty, b) ∈ buckets (library d) → b !! k = Some r → Entry.id r = k.
Proof.
  apply (buckets_Forall (λ _ k r, Entry.id r = k)).
  destruct d; decide_by_evaluation.
Qed.

Lemma key_id_agreement_witness :
  Library.abilities (library library_js) !! "ability-wild-form"
    = Some LibraryJs.ability_wild_form ∧
  Entry.id LibraryJs.ability_wild_form = "ability-wild-form".
Proof.
  assert (Hk : Library.abilities (library library_js) !! "ability-wild-form"
               = Some LibraryJs.ability_wild_form) by (vm_compute; reflexivity).
  split; [exact Hk|].
  exact (key_id_agreement library_js "ability" _ _ _
           (bucket_abilities _) Hk).
Defined.

(** ** Type–tag agreement *)

(** C4. Every record of every bucket of every dataset carries the [type] of
    its bucket, and its [tags] contain ["type:"] followed by that type. *)
Theorem type_tag_agreement (d : Dataset) (ty : string)
    (b : gmap string Entry.t) (k : string) (r : Entry.t) :
  (ty, b) ∈ buckets (library d) → b !! k = Some r →
  Entry.type r = ty ∧ ("type:" +:+ Entry.type r) ∈ Entry.tags r.
Proof.
  apply (buckets_Forall
           (λ ty _ r, Entry.type r = ty ∧
                      ("type:" +:+ Entry.type r) ∈ Entry.tags r)).
  destruct d; decide_by_evaluation.
Qed.

Lemma type_tag_agreement_witness :
  Library.classes (library GRPGLibrary_0_0_1) !! "class-warden"
    = Some GRPGLibrary001.class_warden ∧
  Entry.type GRPGLibrary001.class_warden = "class" ∧
  "type:class" ∈ Entry.tags GRPGLibrary001.class_warden.
Proof.
  assert (Hk : Library.classes (library GRPGLibrary_0_0_1) !! "class-warden"
               = Some GRPGLibrary001.class_warden) by (vm_compute; reflexivity).
  split; [exact Hk|].
  exact (type_tag_agreement GRPGLibrary_0_0_1 "class" _ _ _
           (bucket_classes _) Hk).
Defined.

(** ** Tag-name syntax *)

(** C6. Every key of every dataset's tag dictionary has a colon, and the
    [category] of its entry is the part of the key before the first colon. *)
Theorem tag_name_syntax (d : Dataset) (tagName : string) (e : Tag.t) :
  tag_definitions d !! tagName = Some e →
  before_colon tagName = Some (Tag.category e).
Proof.
  revert tagName e.
  change (map_Forall (λ tagName e, before_colon tagName = Some (Tag.category e))
                     (tag_definitions d)).
  destruct d; decide_by_evaluation.
Qed.

Lemma tag_name_syntax_witness :
  ∃ e, tag_definitions part_000 !! "source:supplement:wardens" = Some e ∧
       Tag.category e = "source" ∧
       before_colon "source:supplement:wardens" = Some (Tag.category e).
Proof.
  eexists. split; [vm_compute; reflexivity|].
  split; [reflexivity|].
  apply (tag_name_syntax part_000). vm_compute. reflexivity.
Defined.

(** ** Id uniqueness and pattern *)

(** C5. Within a dataset, two records that sit at different places (another
    bucket or another key) have different [id] fields, and every [id] is made
    of lowercase letters and dashes only. *)
Theorem id_uniqueness_and_pattern (d : Dataset)
    (ty1 ty2 : string) (b1 b2 : gmap string Entry.t)
    (k1 k2 : string) (r1 r2 : Entry.t) :
  (ty1, b1) ∈ buckets (library d) → b1 !! k1 = Some r1 →
  (ty2, b2) ∈ buckets (library d) → b2 !! k2 = Some r2 →
  (Entry.id r1 = Entry.id r2 → ty1 = ty2 ∧ k1 = k2) ∧
  lowercase_with_dashes (Entry.id r1) = true.
Proof.
  intros Hb1 Hk1 Hb2 Hk2.
  pose proof (buckets_Forall
    (λ ty1 k1 r1,
       Forall (λ b2, map_Forall (λ k2 r2,
                 (Entry.id r1 = Entry.id r2 → ty1 = b2.1 ∧ k1 = k2) ∧
                 lowercase_with_dashes (Entry.id r1) = true) b2.2)
              (buckets (library d)))
    (library d)) as Hall.
  assert (Hinner := Hall ltac:(destruct d; decide_by_evaluation)
                      ty1 b1 k1 r1 Hb1 Hk1).
  rewrite Forall_forall in Hinner.
  exact (Hinner (ty2, b2) Hb2 k2 r2 Hk2).
Qed.

Lemma id_uniqueness_and_pattern_witness :
  (Entry.id LibraryJs.race_omr = Entry.id LibraryJs.ability_omr_sight →
   "race" = "ability" ∧ "race-omr" = "ability-omr-sight") ∧
  lowercase_with_dashes (Entry.id LibraryJs.race_omr) = true.
Proof.
  apply (id_uniqueness_and_pattern library_js
           "race" "ability" (Library.races (library library_js))
           (Library.abilities (library library_js))
           "race-omr" "ability-omr-sight").
  - apply bucket_races.
  - vm_compute. reflexivity.
  - apply bucket_abilities.
  - vm_compute. reflexivity.
Defined.

(** ** Choice-group shape *)

(** C7. In every race's [attributeMods], a key with a choice suffix never
    stands alone: the group of its letter has at least two keys. *)
Theorem choice_group_shape (d : Dataset) (k : string) (r : Entry.t)
    (key : string) (letter : ascii) :
  Library.races (library d) !! k = Some r →
  is_Some (attributeMods r !! key) →
  choice_suffix key = Some letter →
  (2 ≤ size (choice_group (attributeMods r) letter))%nat.
Proof.
  intros Hk [n Hkey] Hsuffix.
  assert (Hall : map_Forall (λ _ r,
            map_Forall (λ key _,
              Forall (λ letter, (2 ≤ size (choice_group (attributeMods r) letter))%nat)
                     (option_list (choice_suffix key)))
              (attributeMods r))
            (Library.races (library d)))
    by (destruct d; decide_by_evaluation).
  specialize (Hall k r Hk key n Hkey). cbv beta in Hall.
  rewrite Hsuffix in Hall. simpl in Hall.
  by apply Forall_inv in Hall.
Qed.

Lemma choice_group_shape_witness :
  Library.races (library library_js) !! "race-wildeman"
    = Some LibraryJs.race_wildeman ∧
  attributeMods LibraryJs.race_wildeman !! "coldResistance_A" = Some 15%Z ∧
  choice_suffix "coldResistance_A" = Some "A"%char ∧
  (2 ≤ size (choice_group (attributeMods LibraryJs.race_wildeman) "A"))%nat.
Proof.
  assert (Hk : Library.races (library library_js) !! "race-wildeman"
               = Some LibraryJs.race_wildeman) by (vm_compute; reflexivity).
  assert (Hkey : attributeMods LibraryJs.race_wildeman !! "coldResistance_A"
                 = Some 15%Z) by (vm_compute; reflexivity).
  assert (Hs : choice_suffix "coldResistance_A" = Some "A"%char)
    by reflexivity.
  repeat split; try assumption.
  exact (choice_group_shape library_js _ _ _ _ Hk (mk_is_Some _ _ Hkey) Hs).
Defined.

(** The group the witness lands in is the one the race is written with. *)
Example wildeman_choice_group_A :
  choice_group (attributeMods LibraryJs.race_wildeman) "A"
  = {[ "anyOffenseOrDefense_A"; "coldResistance_A" ]}.
Proof. decide_by_evaluation. Qed.

(** ** Variant equivalence *)

(** C10. The library of [GRPGLibrary0.0.1.js] and the one the unnamed file
    assigns to [window.GRPG_LIBRARY] are the same value: same meta block,
    same tag dictionary, the same four records in [races], [classes],
    [traits] and [abilities], and nothing in the other four buckets. *)
Theorem variant_equivalence :
  GRPGLibrary001.GRPG_LIBRARY = Part000.GRPG_LIBRARY ∧
  Library.meta GRPGLibrary001.GRPG_LIBRARY
    = Library.meta Part000.GRPG_LIBRARY ∧
  GRPGLibrary001.TAG_DEFINITIONS = Part000.TAG_DEFINITIONS ∧
  Forall (λ lib,
      Library.races lib = {[ "race-tettari" := Part000.race_tettari ]} ∧
      Library.classes lib = {[ "class-warden" := Part000.class_warden ]} ∧
      Library.traits lib
        = {[ "trait-tettari-survivor" := Part000.trait_tettari_survivor ]} ∧
      Library.abilities lib
        = {[ "ability-mark-prey" := Part000.ability_mark_prey ]} ∧
      Library.origins lib = ∅ ∧ Library.circles lib = ∅ ∧
      Library.items lib = ∅ ∧ Library.professions lib = ∅)
    [GRPGLibrary001.GRPG_LIBRARY; Part000.GRPG_LIBRARY].
Proof.
  repeat split; try reflexivity.
  repeat constructor.
Qed.

(** ** Reference closure *)

(** Every reference other than the two named below resolves: in all three
    datasets the innate traits of races, the starting abilities of classes
    and the [grantedBy] links of abilities are closed, and so are the innate
    abilities and starting traits once ["ability-living-touch"] and
    ["trait-hunter-sense"] are set aside. *)
Lemma reference_closure_elsewhere (d : Dataset) :
  (∀ k r, Library.races (library d) !! k = Some r →
     Forall (resolves (Library.traits (library d))) (innateTraits r) ∧
     Forall (λ i, i = "ability-living-touch" ∨
                  resolves (Library.abilities (library d)) i)
            (innateAbilities r)) ∧
  (∀ k r, Library.classes (library d) !! k = Some r →
     Forall (λ i, i = "trait-hunter-sense" ∨
                  resolves (Library.traits (library d)) i)
            (startingTraits r) ∧
     Forall (resolves (Library.abilities (library d))) (startingAbilities r)) ∧
  (∀ k r g, Library.abilities (library d) !! k = Some r →
     Entry.grantedBy r = Some g → grantedBy_resolves (library d) g).
Proof.
  split; [|split].
  - change (map_Forall (λ (_ : string) r,
       Forall (resolves (Library.traits (library d))) (innateTraits r) ∧
       Forall (λ i, i = "ability-living-touch" ∨
                    resolves (Library.abilities (library d)) i)
              (innateAbilities r)) (Library.races (library d))).
    destruct d; decide_by_evaluation.
  - change (map_Forall (λ (_ : string) r,
       Forall (λ i, i = "trait-hunter-sense" ∨
                    resolves (Library.traits (library d)) i)
              (startingTraits r) ∧
       Forall (resolves (Library.abilities (library d))) (startingAbilities r))
       (Library.classes (library d))).
    destruct d; decide_by_evaluation.
  - intros k r g Hk Hg.
    assert (Hall : map_Forall (λ (_ : string) r,
              Forall (grantedBy_resolves (library d))
                     (option_list (Entry.grantedBy r)))
              (Library.abilities (library d)))
      by (destruct d; decide_by_evaluation).
    specialize (Hall k r Hk). cbv beta in Hall.
    rewrite Hg in Hall. by apply Forall_inv in Hall.
Qed.

(** C1. Reference closure, evaluated where the datasets break it.  In
    [library.js] the race ["race-animation"] lists the innate ability
    ["ability-living-touch"], and the abilities bucket has no such key.  In
    the other two datasets the class ["class-warden"] lists the starting
    trait ["trait-hunter-sense"], and the traits bucket has no such key.  So
    no dataset is closed under references. *)
Theorem reference_closure_broken :
  (Library.races LibraryJs.GRPG_LIBRARY !! "race-animation"
     = Some LibraryJs.race_animation ∧
   "ability-living-touch" ∈ innateAbilities LibraryJs.race_animation ∧
   Library.abilities LibraryJs.GRPG_LIBRARY !! "ability-living-touch" = None) ∧
  (Library.classes GRPGLibrary001.GRPG_LIBRARY !! "class-warden"
     = Some GRPGLibrary001.class_warden ∧
   "trait-hunter-sense" ∈ startingTraits GRPGLibrary001.class_warden ∧
   Library.traits GRPGLibrary001.GRPG_LIBRARY !! "trait-hunter-sense" = None) ∧
  (Library.classes Part000.GRPG_LIBRARY !! "class-warden"
     = Some Part000.class_warden ∧
   "trait-hunter-sense" ∈ startingTraits Part000.class_warden ∧
   Library.traits Part000.GRPG_LIBRARY !! "trait-hunter-sense" = None) ∧
  ∀ d, ¬ reference_closure (library d).
Proof.
  assert (H1 : Library.races LibraryJs.GRPG_LIBRARY !! "race-animation"
               = Some LibraryJs.race_animation) by (vm_compute; reflexivity).
  assert (H2 : Library.classes GRPGLibrary001.GRPG_LIBRARY !! "class-warden"
               = Some GRPGLibrary001.class_warden) by (vm_compute; reflexivity).
  assert (H3 : Library.classes Part000.GRPG_LIBRARY !! "class-warden"
               = Some Part000.class_warden) by (vm_compute; reflexivity).
  assert (M1 : "ability-living-touch" ∈ innateAbilities LibraryJs.race_animation)
    by decide_by_evaluation.
  assert (M2 : "trait-hunter-sense" ∈ startingTraits GRPGLibrary001.class_warden)
    by decide_by_evaluation.
  assert (M3 : "trait-hunter-sense" ∈ startingTraits Part000.class_warden)
    by decide_by_evaluation.
  assert (N1 : ¬ resolves (Library.abilities LibraryJs.GRPG_LIBRARY)
                          "ability-living-touch") by decide_by_evaluation.
  assert (N2 : ¬ resolves (Library.traits GRPGLibrary001.GRPG_LIBRARY)
                          "trait-hunter-sense") by decide_by_evaluation.
  assert (N3 : ¬ resolves (Library.traits Part000.GRPG_LIBRARY)
                          "trait-hunter-sense") by decide_by_evaluation.
  repeat split; try assumption;
    try (apply eq_None_not_Some; assumption).
  intros d (Hraces & Hclasses & _). destruct d.
  - destruct (Hraces _ _ H1) as [_ Hall].
    rewrite Forall_forall in Hall. exact (N1 (Hall _ M1)).
  - destruct (Hclasses _ _ H2) as [Hall _].
    rewrite Forall_forall in Hall. exact (N2 (Hall _ M2)).
  - destruct (Hclasses _ _ H3) as [Hall _].
    rewrite Forall_forall in Hall. exact (N3 (Hall _ M3)).
Qed.

(** ** Back-reference symmetry *)

(** Every ability granted by a race, other than ["ability-internal-spark"],
    is listed by that race among its innate abilities. *)
Lemma back_reference_symmetry_elsewhere (d : Dataset) (k : string)
    (a : Entry.t) (g : GrantedBy.t) :
  Library.abilities (library d) !! k = Some a →
  Entry.grantedBy a = Some g → GrantedBy.type g = "race" →
  k ≠ "ability-internal-spark" →
  ∃ race, Library.races (library d) !! GrantedBy.id g = Some race ∧
          Entry.id a ∈ innateAbilities race.
Proof.
  intros Hk Hg Hty Hne.
  assert (Hall : map_Forall (λ k a,
            Forall (λ g, GrantedBy.type g = "race" →
                         k ≠ "ability-internal-spark" →
                         Exists (λ race, Entry.id a ∈ innateAbilities race)
                           (option_list
                              (Library.races (library d) !! GrantedBy.id g)))
                   (option_list (Entry.grantedBy a)))
            (Library.abilities (library d)))
    by (destruct d; decide_by_evaluation).
  specialize (Hall k a Hk). cbv beta in Hall.
  rewrite Hg in Hall. apply Forall_inv in Hall.
  specialize (Hall Hty Hne).
  destruct (Library.races (library d) !! GrantedBy.id g) as [race|].
  - exists race. split; [reflexivity|]. by apply Exists_inv in Hall as [|?%Exists_nil].
  - by apply Exists_nil in Hall.
Qed.

(** C3. Back-reference symmetry, evaluated where [library.js] breaks it.
    The ability stored as ["ability-internal-spark"] is granted by the race
    ["race-animation"]; that race exists, but its innate abilities are
    ["ability-living-touch"] and ["ability-spark-of-life"], so the backward
    link has no forward link to agree with. *)
Theorem back_reference_symmetry_broken :
  Library.abilities LibraryJs.GRPG_LIBRARY !! "ability-internal-spark"
    = Some LibraryJs.ability_internal_spark ∧
  Entry.grantedBy LibraryJs.ability_internal_spark
    = Some {| GrantedBy.type := "race"; GrantedBy.id := "race-animation" |} ∧
  Library.races LibraryJs.GRPG_LIBRARY !! "race-animation"
    = Some LibraryJs.race_animation ∧
  innateAbilities LibraryJs.race_animation
    = ["ability-living-touch"; "ability-spark-of-life"] ∧
  (Entry.id LibraryJs.ability_internal_spark
     ∉ innateAbilities LibraryJs.race_animation) ∧
  ¬ back_reference_symmetry LibraryJs.GRPG_LIBRARY.
Proof.
  assert (Ha : Library.abilities LibraryJs.GRPG_LIBRARY
                 !! "ability-internal-spark"
               = Some LibraryJs.ability_internal_spark)
    by (vm_compute; reflexivity).
  assert (Hr : Library.races LibraryJs.GRPG_LIBRARY !! "race-animation"
               = Some LibraryJs.race_animation) by (vm_compute; reflexivity).
  assert (Hn : Entry.id LibraryJs.ability_internal_spark
               ∉ innateAbilities LibraryJs.race_animation)
    by decide_by_evaluation.
  repeat split; try assumption; try reflexivity.
  intros Hsym.
  destruct (Hsym _ _ _ Ha eq_refl eq_refl) as (race & Hrace & Hin).
  cbn [GrantedBy.id] in Hrace. rewrite Hr in Hrace.
  injection Hrace as <-. exact (Hn Hin).
Qed.

(** ** Tag closure *)

(** Tag closure holds wherever [library.js] does not break it: in
    [GRPGLibrary0.0.1.js] and in the unnamed file every tag of every record
    is a key of the tag dictionary, and in [library.js] every tag of every
    race is, and so is the type tag of every ability. *)
Lemma tag_closure_elsewhere (d : Dataset) (ty : string)
    (b : gmap string Entry.t) (k : string) (r : Entry.t) (t : string) :
  (ty, b) ∈ buckets (library d) → b !! k = Some r → t ∈ Entry.tags r →
  match d with
  | library_js =>
      ty ≠ "ability" ∨ t = "type:ability" →
      is_Some (Library.tags (library d) !! t)
  | GRPGLibrary_0_0_1 | part_000 => is_Some (Library.tags (library d) !! t)
  end.
Proof.
  intros Hb Hk Ht.
  destruct d.
  - pose proof (buckets_Forall (λ ty _ r, Forall (λ t,
        ty ≠ "ability" ∨ t = "type:ability" →
        is_Some (Library.tags (library library_js) !! t)) (Entry.tags r))
        (library library_js) ltac:(decide_by_evaluation) ty b k r Hb Hk)
      as Hall.
    rewrite Forall_forall in Hall. exact (Hall t Ht).
  - pose proof (buckets_Forall (λ _ _ r, Forall (λ t,
        is_Some (Library.tags (library GRPGLibrary_0_0_1) !! t))
        (Entry.tags r)) (library GRPGLibrary_0_0_1)
        ltac:(decide_by_evaluation) ty b k r Hb Hk) as Hall.
    rewrite Forall_forall in Hall. exact (Hall t Ht).
  - pose proof (buckets_Forall (λ _ _ r, Forall (λ t,
        is_Some (Library.tags (library part_000) !! t))
        (Entry.tags r)) (library part_000)
        ltac:(decide_by_evaluation) ty b k r Hb Hk) as Hall.
    rewrite Forall_forall in Hall. exact (Hall t Ht).
Qed.

(** C2. Tag closure, evaluated where [library.js] breaks it.  The ability
    ["ability-tettari-blink"] carries the tags ["category:combat"] and
    ["source:race-tettari"]; neither is a key of the file's tag dictionary,
    which has the nine type tags only.  The same holds for every ability of
    the file: besides its type tag it carries a category tag and a source
    tag, and the dictionary has neither.  So [library.js] is not closed
    under tags, and tag closure does not hold of all three datasets. *)
Theorem tag_closure_broken :
  Library.abilities LibraryJs.GRPG_LIBRARY !! "ability-tettari-blink"
    = Some LibraryJs.ability_tettari_blink ∧
  Entry.tags LibraryJs.ability_tettari_blink
    = ["type:ability"; "category:combat"; "source:race-tettari"] ∧
  Library.tags LibraryJs.GRPG_LIBRARY !! "category:combat" = None ∧
  Library.tags LibraryJs.GRPG_LIBRARY !! "source:race-tettari" = None ∧
  map_Forall (λ _ a, Exists (λ t, Library.tags LibraryJs.GRPG_LIBRARY !! t
                                  = None) (Entry.tags a))
             (Library.abilities LibraryJs.GRPG_LIBRARY) ∧
  ¬ tag_closure LibraryJs.GRPG_LIBRARY ∧
  ¬ (∀ d, tag_closure (library d)).
Proof.
  assert (Ha : Library.abilities LibraryJs.GRPG_LIBRARY
                 !! "ability-tettari-blink"
               = Some LibraryJs.ability_tettari_blink)
    by (vm_compute; reflexivity).
  assert (Ht : "category:combat" ∈ Entry.tags LibraryJs.ability_tettari_blink)
    by decide_by_evaluation.
  assert (Hn : Library.tags LibraryJs.GRPG_LIBRARY !! "category:combat" = None)
    by (vm_compute; reflexivity).
  assert (Hopen : ¬ tag_closure LibraryJs.GRPG_LIBRARY).
  { intros Hclosure.
    destruct (Hclosure _ _ _ _ _ (bucket_abilities _) Ha Ht) as [e He].
    rewrite Hn in He. discriminate He. }
  split; [exact Ha|]. split; [reflexivity|]. split; [exact Hn|].
  split; [vm_compute; reflexivity|].
  split; [decide_by_evaluation|]. split; [exact Hopen|].
  intros Hall. exact (Hopen (Hall library_js)).
Qed.

(** ** Content Store: duplicate ids *)

Module ContentStoreFacts.
Import ContentStore.

(** [get] finds a record exactly when the category holds one with that id. *)
Lemma get_is_Some (c : Category) (ident : string) (s : Store) :
  is_Some (get c ident s) ↔ ∃ r, r ∈ allOf c s ∧ Entry.id r = ident.
Proof.
  unfold get. split.
  - intros [r Hr]. apply fmap_Some in Hr as ([i r'] & Hfind & ->).
    apply list_find_Some in Hfind as (Hi & Hid & _).
    exists r'. split; [|exact Hid]. by eapply list_elem_of_lookup_2.
  - intros (r & Hin & Hid).
    destruct (list_find (λ r, Entry.id r = ident) (allOf c s)) as [p|] eqn:Hfind.
    + by eexists.
    + apply list_find_None in Hfind. rewrite Forall_forall in Hfind.
      by destruct (Hfind r Hin).
Qed.

(** What [get] returns carries the id that was asked for. *)
Lemma get_Some_id (c : Category) (ident : string) (s : Store) (r : Entry.t) :
  get c ident s = Some r → r ∈ allOf c s ∧ Entry.id r = ident.
Proof.
  unfold get. intros Hr. apply fmap_Some in Hr as ([i r'] & Hfind & ->).
  apply list_find_Some in Hfind as (Hi & Hid & _).
  split; [by eapply list_elem_of_lookup_2 | exact Hid].
Qed.

(** Looking past a list that has no match finds the element appended to it. *)
Lemma list_find_snoc_fresh {A : Type} (P : A → Prop) `{!∀ x, Decision (P x)}
    (l : list A) (x : A) :
  list_find P l = None → P x → list_find P (l ++ [x]) = Some (length l, x).
Proof.
  intros Hnone Hx. apply list_find_Some. split; [|split].
  - by rewrite lookup_app_r, Nat.sub_diag.
  - exact Hx.
  - intros j y Hj Hlt. rewrite lookup_app_l in Hj by exact Hlt.
    apply list_find_None in Hnone. rewrite Forall_forall in Hnone.
    apply Hnone. by eapply list_elem_of_lookup_2.
Qed.

(** An insertion appends to the category it names and to no other. *)
Lemma allOf_add_Inserted (c c' : Category) (r : Entry.t) (s s' : Store) :
  add c r s = (Inserted, s') →
  allOf c' s' = (allOf c' s ++ if decide (c = c') then [r] else [])%list.
Proof.
  unfold add. destruct (get c (Entry.id r) s); [discriminate|].
  intros [= <-]. unfold allOf, Store. rewrite filter_app, fmap_app. f_equal.
  rewrite filter_cons, filter_nil. cbn [fst].
  by destruct (decide (c = c')).
Qed.

(** C8. [add] answers [DuplicateId] exactly when the category already holds
    a record with the id of the record offered; the store that comes back
    with that answer is the store that went in; and a later insertion behaves
    on it as on the store that went in, so the refusal costs the load nothing
    but the one record. *)
Theorem add_DuplicateId_atomic (c : Category) (r : Entry.t) (s : Store) :
  ((add c r s).1 = DuplicateId ↔
   ∃ r', r' ∈ allOf c s ∧ Entry.id r' = Entry.id r) ∧
  ((add c r s).1 = DuplicateId → (add c r s).2 = s) ∧
  ((add c r s).1 = DuplicateId →
   ∀ c' r', add c' r' (add c r s).2 = add c' r' s) ∧
  ((add c r s).1 = Inserted →
   (add c r s).2 = (s ++ [(c, r)])%list ∧ get c (Entry.id r) (add c r s).2 = Some r).
Proof.
  pose proof (get_is_Some c (Entry.id r) s) as Hget.
  unfold add. destruct (get c (Entry.id r) s) as [r0|] eqn:Hg; cbn [fst snd].
  - repeat split; try done.
    intros _. apply Hget. by eexists.
  - repeat split; try done.
    + intros Hex. apply Hget in Hex. by apply is_Some_None in Hex.
    + unfold get, allOf, Store.
      rewrite filter_app, fmap_app, filter_cons, filter_nil. cbn [fst].
      rewrite decide_True by done. cbn [fmap list_fmap snd].
      unfold get, allOf, Store in Hg.
      apply fmap_None in Hg.
      by rewrite (list_find_snoc_fresh _ _ _ Hg eq_refl).
Qed.

Lemma add_DuplicateId_atomic_witness :
  let s := [(Races, LibraryJs.race_tettari)] in
  (add Races GRPGLibrary001.race_tettari s).1 = DuplicateId ∧
  (add Races GRPGLibrary001.race_tettari s).2 = s ∧
  (add Traits GRPGLibrary001.trait_tettari_survivor
     (add Races GRPGLibrary001.race_tettari s).2).1 = Inserted.
Proof.
  intros s.
  destruct (add_DuplicateId_atomic Races GRPGLibrary001.race_tettari s)
    as (_ & Hsame & Hnext & _).
  assert (Hdup : (add Races GRPGLibrary001.race_tettari s).1 = DuplicateId)
    by (vm_compute; reflexivity).
  split; [exact Hdup|]. split; [exact (Hsame Hdup)|].
  rewrite (Hnext Hdup). vm_compute. reflexivity.
Defined.

End ContentStoreFacts.

(** * Further properties of the object literals and of the datasets *)

(** ** Keys and names *)

Lemma Exists_option_list {A : Type} (P : A → Prop) (o : option A) :
  Exists P (option_list o) → ∃ x, o = Some x ∧ P x.
Proof.
  destruct o as [x|]; cbn; intros Hex.
  - apply Exists_cons in Hex as [Hx|Hnil]; [by exists x|].
    by apply Exists_nil in Hnil.
  - by apply Exists_nil in Hex.
Qed.

(** X3. Every key of every bucket starts with the type of the bucket and a
    dash: ["race-"] in [races], ["ability-"] in [abilities], and so on. *)
Theorem key_prefix (d : Dataset) (ty : string)
    (b : gmap string Entry.t) (k : string) (r : Entry.t) :
  (ty, b) ∈ buckets (library d) → b !! k = Some r →
  String.prefix (ty +:+ "-") k = true.
Proof.
  apply (buckets_Forall (λ ty k _, String.prefix (ty +:+ "-") k = true)).
  destruct d; decide_by_evaluation.
Qed.

Lemma key_prefix_witness :
  String.prefix "trait-" "trait-tettari-survivor" = true.
Proof.
  apply (key_prefix part_000 "trait" (Library.traits (library part_000))
           "trait-tettari-survivor" Part000.trait_tettari_survivor).
  - apply bucket_traits.
  - vm_compute. reflexivity.
Defined.

(** X4. Apart from two abilities of [library.js], every record is stored
    under the id its display name suggests: the type of its bucket, a dash,
    and the name in lowercase with dashes for spaces. *)
Theorem key_is_slug_of_name (d : Dataset) (ty : string)
    (b : gmap string Entry.t) (k : string) (r : Entry.t) :
  (ty, b) ∈ buckets (library d) → b !! k = Some r →
  k ≠ "ability-internal-spark" → k ≠ "ability-primal-roar-novice" →
  k = ty +:+ "-" +:+ slug (Entry.name r).
Proof.
  apply (buckets_Forall (λ ty k r,
           k ≠ "ability-internal-spark" → k ≠ "ability-primal-roar-novice" →
           k = ty +:+ "-" +:+ slug (Entry.name r))).
  destruct d; decide_by_evaluation.
Qed.

Lemma key_is_slug_of_name_witness :
  Entry.name LibraryJs.ability_deaths_guise = "Death’s Guise" ∧
  "ability-deaths-guise"
  = "ability" +:+ "-" +:+ slug (Entry.name LibraryJs.ability_deaths_guise).
Proof.
  split; [reflexivity|].
  apply (key_is_slug_of_name library_js "ability"
           (Library.abilities (library library_js))).
  - apply bucket_abilities.
  - vm_compute. reflexivity.
  - apply (bool_decide_unpack _). vm_compute. exact I.
  - apply (bool_decide_unpack _). vm_compute. exact I.
Defined.

(** ** Tags *)

(** X5. The type tag of every bucket, also of the buckets that are still
    empty, is a key of the dataset's tag dictionary, filed under the category
    ["type"]. *)
Theorem bucket_type_tag_defined (d : Dataset) (ty : string)
    (b : gmap string Entry.t) :
  (ty, b) ∈ buckets (library d) →
  ∃ e, tag_definitions d !! ("type:" +:+ ty) = Some e ∧
       Tag.category e = "type".
Proof.
  intros Hb.
  assert (Hall : Forall (λ b,
            Exists (λ e, Tag.category e = "type")
                   (option_list (tag_definitions d !! ("type:" +:+ b.1))))
            (buckets (library d)))
    by (destruct d; decide_by_evaluation).
  rewrite Forall_forall in Hall.
  exact (Exists_option_list _ _ (Hall _ Hb)).
Qed.

Lemma bucket_type_tag_defined_witness :
  ∃ e, tag_definitions library_js !! "type:class" = Some e ∧
       Tag.category e = "type".
Proof.
  apply (bucket_type_tag_defined library_js "class"
           (Library.classes (library library_js))).
  apply bucket_classes.
Defined.

(** X6. The tags of a record start with its type tag and repeat no tag. *)
Theorem tags_start_with_type_tag (d : Dataset) (ty : string)
    (b : gmap string Entry.t) (k : string) (r : Entry.t) :
  (ty, b) ∈ buckets (library d) → b !! k = Some r →
  head (Entry.tags r) = Some ("type:" +:+ ty) ∧ NoDup (Entry.tags r).
Proof.
  apply (buckets_Forall (λ ty _ r,
           head (Entry.tags r) = Some ("type:" +:+ ty) ∧
           NoDup (Entry.tags r))).
  destruct d; decide_by_evaluation.
Qed.

Lemma tags_start_with_type_tag_witness :
  head (Entry.tags GRPGLibrary001.ability_mark_prey) = Some "type:ability" ∧
  NoDup (Entry.tags GRPGLibrary001.ability_mark_prey).
Proof.
  apply (tags_start_with_type_tag GRPGLibrary_0_0_1 "ability"
           (Library.abilities (library GRPGLibrary_0_0_1))
           "ability-mark-prey").
  - apply bucket_abilities.
  - vm_compute. reflexivity.
Defined.

(** ** The abilities of [library.js] *)

(** X7. Every ability of [library.js] is granted by a race, is a combat or
    an adventuring ability, and carries exactly three tags that repeat this:
    its type tag, ["category:"] with its mechanics category, and ["source:"]
    with the id of the race that grants it. *)
Theorem ability_tags_mirror_fields (k : string) (a : Entry.t) :
  Library.abilities LibraryJs.GRPG_LIBRARY !! k = Some a →
  ∃ raceId c,
    Entry.grantedBy a
      = Some {| GrantedBy.type := "race"; GrantedBy.id := raceId |} ∧
    mechanicsCategory a = Some c ∧ (c = "combat" ∨ c = "adventuring") ∧
    Entry.tags a = ["type:ability"; "category:" +:+ c; "source:" +:+ raceId].
Proof.
  intros Hk.
  assert (Hall : map_Forall (λ (_ : string) a,
            Exists (λ g, GrantedBy.type g = "race" ∧
              Exists (λ c, (c = "combat" ∨ c = "adventuring") ∧
                Entry.tags a = ["type:ability"; "category:" +:+ c;
                                "source:" +:+ GrantedBy.id g])
                (option_list (mechanicsCategory a)))
              (option_list (Entry.grantedBy a)))
            (Library.abilities LibraryJs.GRPG_LIBRARY))
    by decide_by_evaluation.
  destruct (Exists_option_list _ _ (Hall k a Hk)) as ([gty gid] & Hg & Hty & Hc).
  destruct (Exists_option_list _ _ Hc) as (c & Hcat & Hcase & Htags).
  cbn in Hty, Htags. subst gty. exists gid, c.
  split; [exact Hg|]. split; [exact Hcat|]. split; [exact Hcase|exact Htags].
Qed.

Lemma ability_tags_mirror_fields_witness :
  ∃ raceId c,
    Entry.grantedBy LibraryJs.ability_sun_ray
      = Some {| GrantedBy.type := "race"; GrantedBy.id := raceId |} ∧
    mechanicsCategory LibraryJs.ability_sun_ray = Some c ∧
    (c = "combat" ∨ c = "adventuring") ∧
    Entry.tags LibraryJs.ability_sun_ray
      = ["type:ability"; "category:" +:+ c; "source:" +:+ raceId].
Proof.
  apply (ability_tags_mirror_fields "ability-sun-ray").
  vm_compute. reflexivity.
Defined.

(** X8. In [library.js] the mechanics block of an ability has one of two
    shapes.  A combat ability costs nothing and states its action type, its
    range and its cooldown; an adventuring ability states none of these and
    no duration.  No ability states a target. *)
Theorem ability_mechanics_shape (k : string) (a : Entry.t) :
  Library.abilities LibraryJs.GRPG_LIBRARY !! k = Some a →
  ∃ m, Entry.mechanics a = AbilityM m ∧
       AbilityMechanics.target m = None ∧
       (combat_shape m ∨ adventuring_shape m).
Proof.
  intros Hk.
  assert (Hall : map_Forall (λ (_ : string) a,
            Exists (λ m, AbilityMechanics.target m = None ∧
                         (combat_shape m ∨ adventuring_shape m))
                   (option_list (abilityMechanics a)))
            (Library.abilities LibraryJs.GRPG_LIBRARY))
    by decide_by_evaluation.
  destruct (Exists_option_list _ _ (Hall k a Hk)) as (m & Hm & Hshape).
  exists m. split; [|exact Hshape].
  unfold abilityMechanics in Hm.
  destruct (Entry.mechanics a) as [?|?|?|m']; try discriminate Hm.
  injection Hm as ->. reflexivity.
Qed.

Lemma ability_mechanics_shape_witness :
  ∃ m, Entry.mechanics LibraryJs.ability_barkskin = AbilityM m ∧
       AbilityMechanics.target m = None ∧
       (combat_shape m ∨ adventuring_shape m).
Proof.
  apply (ability_mechanics_shape "ability-barkskin").
  vm_compute. reflexivity.
Defined.

(** X9. In [library.js] the description of an ability is its rules text,
    character for character. *)
Theorem ability_description_is_rules_text (k : string) (a : Entry.t) :
  Library.abilities LibraryJs.GRPG_LIBRARY !! k = Some a →
  rulesText a = Some (Entry.description a).
Proof.
  revert k a.
  change (map_Forall (λ (_ : string) a,
            rulesText a = Some (Entry.description a))
            (Library.abilities LibraryJs.GRPG_LIBRARY)).
  decide_by_evaluation.
Qed.

Lemma ability_description_is_rules_text_witness :
  rulesText LibraryJs.ability_wild_form
  = Some (Entry.description LibraryJs.ability_wild_form).
Proof.
  apply (ability_description_is_rules_text "ability-wild-form").
  vm_compute. reflexivity.
Defined.

(** ** Races and their abilities in [library.js] *)

(** X10. Every race of [library.js] is named as the granting race by
    exactly two abilities, one of them a combat ability and one an
    adventuring ability. *)
Theorem race_grants_two_abilities (k : string) (r : Entry.t) :
  Library.races LibraryJs.GRPG_LIBRARY !! k = Some r →
  size (granted_by_race LibraryJs.GRPG_LIBRARY k) = 2%nat ∧
  map_Exists (λ _ a, mechanicsCategory a = Some "combat")
             (granted_by_race LibraryJs.GRPG_LIBRARY k) ∧
  map_Exists (λ _ a, mechanicsCategory a = Some "adventuring")
             (granted_by_race LibraryJs.GRPG_LIBRARY k).
Proof.
  revert k r.
  change (map_Forall (λ k (_ : Entry.t),
    size (granted_by_race LibraryJs.GRPG_LIBRARY k) = 2%nat ∧
    map_Exists (λ _ a, mechanicsCategory a = Some "combat")
               (granted_by_race LibraryJs.GRPG_LIBRARY k) ∧
    map_Exists (λ _ a, mechanicsCategory a = Some "adventuring")
               (granted_by_race LibraryJs.GRPG_LIBRARY k))
    (Library.races LibraryJs.GRPG_LIBRARY)).
  decide_by_evaluation.
Qed.

Lemma race_grants_two_abilities_witness :
  size (granted_by_race LibraryJs.GRPG_LIBRARY "race-animation") = 2%nat ∧
  map_Exists (λ _ a, mechanicsCategory a = Some "combat")
             (granted_by_race LibraryJs.GRPG_LIBRARY "race-animation") ∧
  map_Exists (λ _ a, mechanicsCategory a = Some "adventuring")
             (granted_by_race LibraryJs.GRPG_LIBRARY "race-animation").
Proof.
  apply (race_grants_two_abilities "race-animation" LibraryJs.race_animation).
  vm_compute. reflexivity.
Defined.

(** X11. Every race of [library.js] lists exactly two innate abilities and
    no innate trait, and no ability id is listed by two races. *)
Theorem innate_abilities_two_and_disjoint (k1 k2 : string)
    (r1 r2 : Entry.t) (i : string) :
  Library.races LibraryJs.GRPG_LIBRARY !! k1 = Some r1 →
  Library.races LibraryJs.GRPG_LIBRARY !! k2 = Some r2 →
  length (innateAbilities r1) = 2%nat ∧ innateTraits r1 = [] ∧
  (i ∈ innateAbilities r1 → i ∈ innateAbilities r2 → k1 = k2).
Proof.
  intros Hk1 Hk2.
  assert (Hall : map_Forall (λ k1 r1,
            length (innateAbilities r1) = 2%nat ∧ innateTraits r1 = [] ∧
            map_Forall (λ k2 r2,
              Forall (λ i, i ∈ innateAbilities r2 → k1 = k2)
                     (innateAbilities r1))
              (Library.races LibraryJs.GRPG_LIBRARY))
            (Library.races LibraryJs.GRPG_LIBRARY))
    by decide_by_evaluation.
  destruct (Hall k1 r1 Hk1) as (Hlen & Htraits & Hdisjoint).
  split; [exact Hlen|]. split; [exact Htraits|].
  intros Hi1. specialize (Hdisjoint k2 r2 Hk2). cbv beta in Hdisjoint.
  rewrite Forall_forall in Hdisjoint. exact (Hdisjoint i Hi1).
Qed.

Lemma innate_abilities_two_and_disjoint_witness :
  length (innateAbilities LibraryJs.race_omr) = 2%nat ∧
  innateTraits LibraryJs.race_omr = [] ∧
  ("ability-omr-sight" ∈ innateAbilities LibraryJs.race_omr →
   "ability-omr-sight" ∈ innateAbilities LibraryJs.race_omr →
   "race-omr" = "race-omr").
Proof.
  apply (innate_abilities_two_and_disjoint "race-omr" "race-omr").
  - vm_compute. reflexivity.
  - vm_compute. reflexivity.
Defined.

(** X12. Forward links agree with backward links: whenever a race lists an
    innate ability that the abilities bucket holds, that ability names the
    race as the one that grants it. *)
Theorem innate_ability_granted_by_its_race (d : Dataset) (k : string)
    (r : Entry.t) (i : string) (a : Entry.t) :
  Library.races (library d) !! k = Some r →
  i ∈ innateAbilities r →
  Library.abilities (library d) !! i = Some a →
  Entry.grantedBy a = Some {| GrantedBy.type := "race"; GrantedBy.id := k |}.
Proof.
  intros Hk Hi Ha.
  assert (Hall : map_Forall (λ k r,
            Forall (λ i,
              Forall (λ a, Entry.grantedBy a
                           = Some {| GrantedBy.type := "race";
                                     GrantedBy.id := k |})
                     (option_list (Library.abilities (library d) !! i)))
              (innateAbilities r))
            (Library.races (library d)))
    by (destruct d; decide_by_evaluation).
  specialize (Hall k r Hk). cbv beta in Hall.
  rewrite Forall_forall in Hall. specialize (Hall i Hi).
  rewrite Ha in Hall. exact (Forall_inv Hall).
Qed.

Lemma innate_ability_granted_by_its_race_witness :
  "ability-spark-of-life" ∈ innateAbilities LibraryJs.race_animation ∧
  Entry.grantedBy LibraryJs.ability_spark_of_life
  = Some {| GrantedBy.type := "race"; GrantedBy.id := "race-animation" |}.
Proof.
  assert (Hi : "ability-spark-of-life"
               ∈ innateAbilities LibraryJs.race_animation)
    by decide_by_evaluation.
  split; [exact Hi|].
  apply (innate_ability_granted_by_its_race library_js "race-animation"
           LibraryJs.race_animation "ability-spark-of-life").
  - vm_compute. reflexivity.
  - exact Hi.
  - vm_compute. reflexivity.
Defined.

(** X13. Every race of [library.js] is built on the same budget.  Each
    bonus of its [attributeMods] is 1, 2, 3, 5 or 15; the bonuses below five
    add up to four; and the race gets one large bonus: the bonuses from five
    on are either a single one or, taken together, the keys of one choice
    group. *)
Theorem race_attribute_budget (k : string) (r : Entry.t) :
  Library.races LibraryJs.GRPG_LIBRARY !! k = Some r →
  map_Forall (λ _ v, (1 ≤ v ≤ 3)%Z ∨ v = 5%Z ∨ v = 15%Z) (attributeMods r) ∧
  small_bonus_total (attributeMods r) = 4%Z ∧
  (size (large_bonuses (attributeMods r)) = 1%nat ∨
   ∃ letter,
     large_bonuses (attributeMods r) ≠ ∅ ∧
     dom (large_bonuses (attributeMods r))
     = choice_group (attributeMods r) letter).
Proof.
  intros Hk.
  assert (Hall : map_Forall (λ (_ : string) r,
    map_Forall (λ _ v, (1 ≤ v ≤ 3)%Z ∨ v = 5%Z ∨ v = 15%Z) (attributeMods r) ∧
    small_bonus_total (attributeMods r) = 4%Z ∧
    (size (large_bonuses (attributeMods r)) = 1%nat ∨
     Exists (λ letter,
         large_bonuses (attributeMods r) ≠ ∅ ∧
         dom (large_bonuses (attributeMods r))
         = choice_group (attributeMods r) letter)
       (omap choice_suffix (map_to_list (large_bonuses (attributeMods r))).*1)))
    (Library.races LibraryJs.GRPG_LIBRARY))
    by decide_by_evaluation.
  destruct (Hall k r Hk) as (Hvalues & Htotal & Hlarge).
  split; [exact Hvalues|]. split; [exact Htotal|].
  destruct Hlarge as [Hone|Hgroup]; [by left|right].
  apply Exists_exists in Hgroup as (letter & _ & Hletter).
  by exists letter.
Qed.

Lemma race_attribute_budget_witness :
  map_Forall (λ _ v, (1 ≤ v ≤ 3)%Z ∨ v = 5%Z ∨ v = 15%Z)
             (attributeMods LibraryJs.race_wildeman) ∧
  small_bonus_total (attributeMods LibraryJs.race_wildeman) = 4%Z ∧
  (size (large_bonuses (attributeMods LibraryJs.race_wildeman)) = 1%nat ∨
   ∃ letter,
     large_bonuses (attributeMods LibraryJs.race_wildeman) ≠ ∅ ∧
     dom (large_bonuses (attributeMods LibraryJs.race_wildeman))
     = choice_group (attributeMods LibraryJs.race_wildeman) letter).
Proof.
  apply (race_attribute_budget "race-wildeman").
  vm_compute. reflexivity.
Defined.

(** A mapping with two large bonuses in two different choice groups does not
    pass: the budget asks for one group. *)
Example two_groups_are_not_one_large_bonus :
  let mods : gmap string Z :=
    js_object [("a", 3%Z); ("b", 1%Z); ("x_A", 5%Z); ("y_B", 15%Z)] in
  ¬ (size (large_bonuses mods) = 1%nat ∨
     ∃ letter, large_bonuses mods ≠ ∅ ∧
               dom (large_bonuses mods) = choice_group mods letter).
Proof.
  intros mods [Hone|(letter & _ & Hdom)].
  - revert Hone. apply (bool_decide_unpack _). vm_compute. exact I.
  - assert (Hx : "x_A" ∈ dom (large_bonuses mods)) by decide_by_evaluation.
    assert (Hy : "y_B" ∈ dom (large_bonuses mods)) by decide_by_evaluation.
    rewrite Hdom in Hx, Hy. unfold choice_group in Hx, Hy.
    apply elem_of_filter in Hx as [Hx _]. apply elem_of_filter in Hy as [Hy _].
    vm_compute in Hx, Hy. rewrite <- Hx in Hy. discriminate Hy.
Qed.

(** ** Base fields *)

(** X14. The provenance fields drift between the files as a block.  No
    record of [library.js] has a [source], a [version], a [createdAt] or an
    [updatedAt]; every record of the other two datasets has all four, with a
    page in its source, a version from 1.0 on, and an update date equal to
    its creation date. *)
Theorem provenance_fields (d : Dataset) (ty : string)
    (b : gmap string Entry.t) (k : string) (r : Entry.t) :
  (ty, b) ∈ buckets (library d) → b !! k = Some r →
  match d with
  | library_js =>
      Entry.source r = None ∧ Entry.version r = None ∧
      Entry.createdAt r = None ∧ Entry.updatedAt r = None
  | GRPGLibrary_0_0_1 | part_000 =>
      ∃ s v, Entry.source r = Some s ∧ is_Some (Source.page s) ∧
             Entry.version r = Some v ∧
             (1 ≤ Version.major v)%Z ∧ (0 ≤ Version.minor v)%Z ∧
             is_Some (Entry.createdAt r) ∧
             Entry.updatedAt r = Entry.createdAt r
  end.
Proof.
  intros Hb Hk.
  pose (present := λ r : Entry.t,
    Exists (λ s, is_Some (Source.page s) ∧
      Exists (λ v, (1 ≤ Version.major v)%Z ∧ (0 ≤ Version.minor v)%Z ∧
                   is_Some (Entry.createdAt r) ∧
                   Entry.updatedAt r = Entry.createdAt r)
             (option_list (Entry.version r)))
      (option_list (Entry.source r))).
  assert (Hpresent : ∀ r, present r →
    ∃ s v, Entry.source r = Some s ∧ is_Some (Source.page s) ∧
           Entry.version r = Some v ∧
           (1 ≤ Version.major v)%Z ∧ (0 ≤ Version.minor v)%Z ∧
           is_Some (Entry.createdAt r) ∧
           Entry.updatedAt r = Entry.createdAt r).
  { intros r' Hr'.
    destruct (Exists_option_list _ _ Hr') as (s & Hs & Hpage & Hv).
    destruct (Exists_option_list _ _ Hv) as (v & Hver & Hrest).
    exists s, v. split; [exact Hs|]. split; [exact Hpage|].
    split; [exact Hver|exact Hrest]. }
  destruct d.
  - exact (buckets_Forall (λ _ _ r,
             Entry.source r = None ∧ Entry.version r = None ∧
             Entry.createdAt r = None ∧ Entry.updatedAt r = None)
             (library library_js) ltac:(decide_by_evaluation)
             ty b k r Hb Hk).
  - apply Hpresent.
    exact (buckets_Forall (λ _ _ r, present r) (library GRPGLibrary_0_0_1)
             ltac:(subst present; decide_by_evaluation) ty b k r Hb Hk).
  - apply Hpresent.
    exact (buckets_Forall (λ _ _ r, present r) (library part_000)
             ltac:(subst present; decide_by_evaluation) ty b k r Hb Hk).
Qed.

Lemma provenance_fields_witness :
  (Entry.source LibraryJs.race_jackal = None ∧
   Entry.version LibraryJs.race_jackal = None ∧
   Entry.createdAt LibraryJs.race_jackal = None ∧
   Entry.updatedAt LibraryJs.race_jackal = None) ∧
  ∃ s v, Entry.source Part000.class_warden = Some s ∧
         is_Some (Source.page s) ∧
         Entry.version Part000.class_warden = Some v ∧
         (1 ≤ Version.major v)%Z ∧ (0 ≤ Version.minor v)%Z ∧
         is_Some (Entry.createdAt Part000.class_warden) ∧
         Entry.updatedAt Part000.class_warden
         = Entry.createdAt Part000.class_warden.
Proof.
  split.
  - apply (provenance_fields library_js "race"
             (Library.races (library library_js)) "race-jackal").
    + apply bucket_races.
    + vm_compute. reflexivity.
  - apply (provenance_fields part_000 "class"
             (Library.classes (library part_000)) "class-warden").
    + apply bucket_classes.
    + vm_compute. reflexivity.
Defined.

(** X15. No record has an empty name, summary or description, and every
    trait and every ability has a rules text that is not empty. *)
Theorem display_fields_filled (d : Dataset) (ty : string)
    (b : gmap string Entry.t) (k : string) (r : Entry.t) :
  (ty, b) ∈ buckets (library d) → b !! k = Some r →
  Entry.name r ≠ "" ∧ Entry.summary r ≠ "" ∧ Entry.description r ≠ "" ∧
  (ty = "trait" ∨ ty = "ability" → ∃ t, rulesText r = Some t ∧ t ≠ "").
Proof.
  intros Hb Hk.
  pose proof (buckets_Forall (λ ty _ r,
    Entry.name r ≠ "" ∧ Entry.summary r ≠ "" ∧ Entry.description r ≠ "" ∧
    (ty = "trait" ∨ ty = "ability" →
     Exists (λ t, t ≠ "") (option_list (rulesText r))))
    (library d) ltac:(destruct d; decide_by_evaluation) ty b k r Hb Hk)
    as (Hname & Hsummary & Hdescription & Hrules).
  split; [exact Hname|]. split; [exact Hsummary|].
  split; [exact Hdescription|].
  intros Hty. exact (Exists_option_list _ _ (Hrules Hty)).
Qed.

Lemma display_fields_filled_witness :
  Entry.name Part000.trait_tettari_survivor ≠ "" ∧
  Entry.summary Part000.trait_tettari_survivor ≠ "" ∧
  Entry.description Part000.trait_tettari_survivor ≠ "" ∧
  ("trait" = "trait" ∨ "trait" = "ability" →
   ∃ t, rulesText Part000.trait_tettari_survivor = Some t ∧ t ≠ "").
Proof.
  apply (display_fields_filled part_000 "trait"
           (Library.traits (library part_000)) "trait-tettari-survivor").
  - apply bucket_traits.
  - vm_compute. reflexivity.
Defined.

(** ** The tag dictionaries of the three files *)


(** X17. The primary roles of a class are tags of the class, and each is a
    key of the dataset's tag dictionary filed under the category ["role"]. *)
Theorem primary_roles_are_role_tags (d : Dataset) (k : string)
    (r : Entry.t) (role : string) :
  Library.classes (library d) !! k = Some r →
  role ∈ primaryRoles r →
  role ∈ Entry.tags r ∧
  ∃ e, tag_definitions d !! role = Some e ∧ Tag.category e = "role".
Proof.
  intros Hk Hrole.
  assert (Hall : map_Forall (λ (_ : string) r,
            Forall (λ role, role ∈ Entry.tags r ∧
                     Exists (λ e, Tag.category e = "role")
                            (option_list (tag_definitions d !! role)))
                   (primaryRoles r))
            (Library.classes (library d)))
    by (destruct d; decide_by_evaluation).
  specialize (Hall k r Hk). cbv beta in Hall.
  rewrite Forall_forall in Hall. destruct (Hall role Hrole) as [Htag Hdef].
  split; [exact Htag|]. exact (Exists_option_list _ _ Hdef).
Qed.

Lemma primary_roles_are_role_tags_witness :
  "role:utility" ∈ primaryRoles GRPGLibrary001.class_warden ∧
  "role:utility" ∈ Entry.tags GRPGLibrary001.class_warden ∧
  ∃ e, tag_definitions GRPGLibrary_0_0_1 !! "role:utility" = Some e ∧
       Tag.category e = "role".
Proof.
  assert (Hrole : "role:utility" ∈ primaryRoles GRPGLibrary001.class_warden)
    by decide_by_evaluation.
  split; [exact Hrole|].
  apply (primary_roles_are_role_tags GRPGLibrary_0_0_1 "class-warden"
           GRPGLibrary001.class_warden "role:utility").
  - vm_compute. reflexivity.
  - exact Hrole.
Defined.

(** ** Loading [library.js] into a page *)

Module HostFacts.
Import Host.

(** Writing two properties a second time changes nothing. *)
Lemma insert_twice_again {A : Type} (m : gmap string A) (i j : string)
    (x y : A) :
  <[i := x]> (<[j := y]> (<[i := x]> (<[j := y]> m)))
  = <[i := x]> (<[j := y]> m).
Proof.
  apply map_eq. intros p. rewrite !lookup_insert.
  repeat case_decide; congruence.
Qed.

(** Two writes to a dictionary, seen from any property. *)
Lemma two_writes {A : Type} (m : gmap string A) (i j : string) (x y : A) :
  i ≠ j →
  let m' := <[i := x]> (<[j := y]> m) in
  m' !! j = Some y ∧ m' !! i = Some x ∧
  (∀ p, p ≠ j → p ≠ i → m' !! p = m !! p) ∧
  <[i := x]> (<[j := y]> m') = m'.
Proof.
  intros Hne m'. subst m'. split; [|split; [|split]].
  - by rewrite lookup_insert_ne, lookup_insert_eq.
  - by rewrite lookup_insert_eq.
  - intros p Hj Hi. by rewrite !lookup_insert_ne.
  - apply insert_twice_again.
Qed.

(** X18. The closing statement of [library.js] does nothing on a host
    without a [window].  On a host with one it leaves [window.TAG_DEFINITIONS]
    and [window.GRPG_LIBRARY] holding the file's two values, whatever they
    held before, so that [window.GRPG_LIBRARY.tags] is the dictionary found
    at [window.TAG_DEFINITIONS]; it touches no other property of the window;
    and running it again changes nothing. *)
Theorem window_export_sets_two_properties (w : gmap string Value) :
  window_export None = None ∧
  ∃ w', window_export (Some w) = Some w' ∧
    w' !! "TAG_DEFINITIONS" = Some (TagDictionary LibraryJs.TAG_DEFINITIONS) ∧
    w' !! "GRPG_LIBRARY" = Some (LibraryRoot LibraryJs.GRPG_LIBRARY) ∧
    Library.tags LibraryJs.GRPG_LIBRARY = LibraryJs.TAG_DEFINITIONS ∧
    (∀ p, p ≠ "TAG_DEFINITIONS" → p ≠ "GRPG_LIBRARY" → w' !! p = w !! p) ∧
    window_export (Some w') = Some w'.
Proof.
  split; [reflexivity|].
  destruct (two_writes w "GRPG_LIBRARY" "TAG_DEFINITIONS"
              (LibraryRoot LibraryJs.GRPG_LIBRARY)
              (TagDictionary LibraryJs.TAG_DEFINITIONS) ltac:(discriminate))
    as (Htags & Hlib & Hframe & Hagain).
  eexists. split; [reflexivity|].
  split; [exact Htags|]. split; [exact Hlib|]. split; [reflexivity|].
  split; [exact Hframe|].
  unfold window_export. f_equal. exact Hagain.
Qed.

End HostFacts.
